(** * RAGChatBot: conversational retrieval pipeline, session store and
      PDF ingestion, embedded from [rag_chatbot.py], [pdf_processor.py]
      and [api.py].

    Python objects are modelled by explicit state passing.  A raised
    exception is an outcome of its own, and the state reached when it is
    raised is kept, as in Python.  Calls to the remote providers (the
    completion model and the embedding endpoint) are answered by oracles
    and recorded in a call log. *)

From stdpp Require Import gmap strings list fin_maps sorting pretty.
From Stdlib Require Import ZArith Lia.

(** ** Strings *)

Definition chr (n : nat) : string := String (Ascii.ascii_of_nat n) EmptyString.

(** [sep.join(parts)] *)
Definition join (sep : string) (parts : list string) : string :=
  String.concat sep parts.

(** The characters removed by [str.strip()], within ASCII. *)
Definition isspace (c : Ascii.ascii) : bool :=
  let n := Ascii.nat_of_ascii c in
  ((9 <=? n) && (n <=? 13)) || ((28 <=? n) && (n <=? 32)).

Fixpoint lstrip (s : string) : string :=
  match s with
  | String c s' => if isspace c then lstrip s' else s
  | EmptyString => EmptyString
  end.

Fixpoint rstrip (s : string) : string :=
  match s with
  | String c s' =>
      match rstrip s' with
      | EmptyString => if isspace c then EmptyString else String c EmptyString
      | r => String c r
      end
  | EmptyString => EmptyString
  end.

Definition strip (s : string) : string := rstrip (lstrip s).

(** [len(s)] as a Python integer. *)
Definition len_str (s : string) : Z := Z.of_nat (String.length s).

(** ** Exceptions and outcomes *)

Inductive exception :=
| FileNotFoundError (msg : string)
| ValueError (msg : string)
| KeyError (msg : string)
| ProviderError (msg : string)
| HTTPException (status_code : Z) (detail : string).

(** [str(e)] *)
Definition str (e : exception) : string :=
  match e with
  | FileNotFoundError m | ValueError m | KeyError m | ProviderError m => m
  | HTTPException _ d => d
  end.

Inductive outcome (A : Type) :=
| Return (a : A)
| Raise (e : exception).
Arguments Return {A} a.
Arguments Raise {A} e.

(** A computation over a state [St]: it returns or raises, and in both
    cases leaves a state behind. *)
Definition M (St A : Type) : Type := St -> outcome A * St.

#[global] Instance M_ret {St} : MRet (M St) := fun A a s => (Return a, s).

#[global] Instance M_bind {St} : MBind (M St) := fun A B f m s =>
  match m s with
  | (Return a, s') => f a s'
  | (Raise e, s') => (Raise e, s')
  end.

Definition raise {St A} (e : exception) : M St A := fun s => (Raise e, s).
Definition get_state {St} : M St St := fun s => (Return s, s).
Definition put_state {St} (s : St) : M St unit := fun _ => (Return tt, s).

(** [try: body except Exception as e: handler(e)] *)
Definition try_except {St A} (body : M St A) (handler : exception -> M St A)
  : M St A := fun s =>
  match body s with
  | (Return a, s') => (Return a, s')
  | (Raise e, s') => handler e s'
  end.

(** ** Messages, documents, dictionaries *)

Inductive BaseMessage :=
| SystemMessage (content : string)
| HumanMessage (content : string)
| AIMessage (content : string).

Definition content (m : BaseMessage) : string :=
  match m with SystemMessage c | HumanMessage c | AIMessage c => c end.

(** Values stored in a chunk's metadata dictionary. *)
Inductive MetaVal :=
| MStr (s : string)
| MInt (z : Z).

#[global] Instance MetaVal_eq_dec : EqDecision MetaVal.
Proof. solve_decision. Defined.

Record Document := mkDocument {
  page_content : string;
  metadata : gmap string MetaVal
}.

(** One entry of the verbose answer's ["sources"] list:
    [{"content": ..., "metadata": ...}]. *)
Record Source := mkSource {
  src_content : string;
  src_metadata : gmap string MetaVal
}.

(** Values of the dictionaries returned by [chat] and
    [process_uploaded_pdf]. *)
Inductive PyVal :=
| VNone
| VBool (b : bool)
| VInt (z : Z)
| VStr (s : string)
| VSources (l : list Source).

(** ** Providers

    The collaborators the code calls but does not implement.  Each remote
    call is answered by an oracle that also sees how many provider calls
    were made before it, so that a provider may answer the same request
    differently (or fail) at different times. *)

Class Providers := {
  (** an embedding vector *)
  Vec : Type;
  (** [ChatOpenAI.invoke(messages).content] *)
  llm_invoke : nat -> list BaseMessage -> outcome string;
  (** [HuggingFaceEndpointEmbeddings.embed_query] *)
  embed_query : nat -> string -> outcome Vec;
  (** [HuggingFaceEndpointEmbeddings.embed_documents] *)
  embed_documents : nat -> list string -> outcome (list Vec);
  (** the order induced by cosine similarity: a larger value is nearer *)
  similarity : Vec -> Vec -> Z;
  (** [CharacterTextSplitter(chunk_size, chunk_overlap, separator).split_text] *)
  split_text : Z -> Z -> string -> string -> list string
}.

(** A provider call, as recorded in the log. *)
Inductive Call :=
| LLMInvoke (messages : list BaseMessage)
| EmbedQuery (text : string)
| EmbedDocuments (texts : list string).

(** A PDF file as [PdfReader] sees it: unreadable, or a list of pages whose
    text extraction returns or raises. *)
Inductive PdfFile :=
| Corrupt (e : exception)
| Pdf (pages : list (outcome string)).

(** ** The environment: vector index, files, provider log *)

Section Environment.
Context `{Providers}.

(** A record of the vector index: an embedding and the chunk it indexes. *)
Record IndexRecord := mkIndexRecord {
  rec_vec : Vec;
  rec_doc : Document
}.

Record Env := mkEnv {
  (** [os.getenv("HF_TOKEN")] *)
  hf_token : option string;
  (** [os.path.exists("db/chroma_db")] *)
  persist_dir_exists : bool;
  (** the records of the one collection persisted at [db/chroma_db] *)
  collection : list IndexRecord;
  (** the [*.txt] documents of [docs/], [None] when [docs/] does not exist *)
  txt_docs : option (list Document);
  (** the PDF files on disk, by path *)
  files : gmap string PdfFile;
  (** the provider calls made so far, oldest first *)
  calls : list Call
}.

Definition set_persist_dir_exists (b : bool) (e : Env) : Env :=
  mkEnv (hf_token e) b (collection e) (txt_docs e) (files e) (calls e).
Definition set_collection (c : list IndexRecord) (e : Env) : Env :=
  mkEnv (hf_token e) (persist_dir_exists e) c (txt_docs e) (files e) (calls e).
Definition set_files (f : gmap string PdfFile) (e : Env) : Env :=
  mkEnv (hf_token e) (persist_dir_exists e) (collection e) (txt_docs e) f (calls e).
Definition set_calls (l : list Call) (e : Env) : Env :=
  mkEnv (hf_token e) (persist_dir_exists e) (collection e) (txt_docs e) (files e) l.

(** A provider call: the oracle answers, the call is logged whether it
    succeeds or not. *)
Definition provider_call {A} (c : Call) (answer : nat -> outcome A) : M Env A :=
  fun e => (answer (length (calls e)), set_calls (calls e ++ [c]) e).

Definition invoke (messages : list BaseMessage) : M Env string :=
  provider_call (LLMInvoke messages) (fun n => llm_invoke n messages).

(** *** The vector index *)

(** [where={key: value, ...}]: every pair of the filter is in the metadata. *)
Definition where_matches (where_ : gmap string MetaVal) (d : Document) : bool :=
  bool_decide (map_Forall (fun key v => metadata d !! key = Some v) where_).

Definition candidates (filter_ : option (gmap string MetaVal))
    (records : list IndexRecord) : list IndexRecord :=
  match filter_ with
  | None => records
  | Some w => filter (fun r => where_matches w (rec_doc r) = true) records
  end.

(** [nearer q r1 r2]: [r1] is at least as similar to the query as [r2]. *)
Definition nearer (q : Vec) (r1 r2 : IndexRecord) : Prop :=
  (similarity q (rec_vec r2) <= similarity q (rec_vec r1))%Z.

#[global] Instance nearer_dec q r1 r2 : Decision (nearer q r1 r2).
Proof. unfold nearer. apply _. Defined.

(** Modelled from the spec: [VectorIndex.query(vector, k, filter?)], the
    [k] nearest records by similarity, nearest first, at most [k] of them
    and fewer when the index holds fewer; [k >= 1], anything else is
    rejected.  The query text is embedded first. *)
Definition similarity_search (query : string) (k : Z)
    (filter_ : option (gmap string MetaVal)) : M Env (list Document) :=
  q ← provider_call (EmbedQuery query) (fun n => embed_query n query);
  e ← get_state;
  if bool_decide (k < 1)%Z
  then raise (ValueError "Number of requested results cannot be negative, or zero.")
  else mret (rec_doc <$>
         take (Z.to_nat k) (merge_sort (nearer q) (candidates filter_ (collection e)))).

(** Modelled from the spec: [VectorIndex.upsert(records)].  The texts are
    embedded in one provider call, then the records are appended. *)
Definition add_documents (documents : list Document) : M Env unit :=
  vs ← provider_call (EmbedDocuments (page_content <$> documents))
         (fun n => embed_documents n (page_content <$> documents));
  e ← get_state;
  if bool_decide (length vs = length documents)
  then put_state
         (set_collection (collection e ++ zip_with mkIndexRecord vs documents) e)
  else raise (ValueError "Unequal lengths for fields: embeddings and documents").

(** [Chroma.from_documents(documents, ..., persist_directory)]: opens the
    collection, creating the directory, then adds the documents. *)
Definition from_documents (documents : list Document) : M Env unit :=
  e ← get_state;
  _ ← put_state (set_persist_dir_exists true e);
  add_documents documents.

(** [self.db.as_retriever(search_kwargs={"k": k}).invoke(query)]: only [k]
    is passed on, no filter. *)
Definition retriever_invoke (k : Z) (query : string) : M Env (list Document) :=
  similarity_search query k None.

(** *** Methods

    A method of an object of class [Self] runs on the object and the
    environment. *)
Definition in_env {Self A} (m : M Env A) : M (Self * Env) A := fun s =>
  let '(r, e') := m s.2 in (r, (s.1, e')).
Definition get_self {Self} : M (Self * Env) Self := fun s => (Return s.1, s).
Definition put_self {Self} (self : Self) : M (Self * Env) unit :=
  fun s => (Return tt, (self, s.2)).

End Environment.

(** ** [rag_chatbot.py]: document ingestion *)

Module RAGConfig.
Definition CHUNK_SIZE : Z := 1000.
Definition CHUNK_OVERLAP : Z := 0.
Definition DEFAULT_K : Z := 3.
End RAGConfig.

Section Ingestion.
Context `{Providers}.

(** The one real branch of the factory: it needs a non-empty [HF_TOKEN]. *)
Definition get_embedding_function : M Env unit :=
  e ← get_state;
  match hf_token e with
  | Some (String _ _) => mret tt
  | _ => raise (ValueError "HF_TOKEN not found in environment variables")
  end.

Definition load_documents : M Env (list Document) :=
  e ← get_state;
  match txt_docs e with
  | None => raise (FileNotFoundError "The directory docs does not exist.")
  | Some [] => raise (FileNotFoundError "No .txt files found in docs.")
  | Some documents => mret documents
  end.

(** [CharacterTextSplitter(chunk_size, chunk_overlap).split_documents]: every
    chunk keeps the metadata of the document it comes from.  The default
    separator is a blank line. *)
Definition split_documents (documents : list Document)
    (chunk_size chunk_overlap : Z) : list Document :=
  d ← documents;
  (fun chunk => mkDocument chunk (metadata d)) <$>
    split_text chunk_size chunk_overlap (chr 10 +:+ chr 10) (page_content d).

Definition create_vector_store (chunks : list Document) : M Env unit :=
  _ ← get_embedding_function;
  from_documents chunks.

Definition ingest_documents (force_reingest : bool) : M Env unit :=
  e ← get_state;
  if persist_dir_exists e && negb force_reingest
  then get_embedding_function
  else
    documents ← load_documents;
    create_vector_store
      (split_documents documents RAGConfig.CHUNK_SIZE RAGConfig.CHUNK_OVERLAP).

End Ingestion.

(** ** [rag_chatbot.py]: class [RAGChatbot] *)

Module RAGChatbot.
Section Methods.
Context `{Providers}.

(** The object: its history.  Its [db] attribute is a handle on the one
    shared collection of the environment. *)
Record t := mk { chat_history : list BaseMessage }.

(** [self.chat_history.append(m)] *)
Definition history_append (m : BaseMessage) : M (t * Env) unit :=
  self ← get_self;
  put_self (mk (chat_history self ++ [m])).

Definition __init__ (auto_ingest : bool) : M Env t :=
  e ← get_state;
  if persist_dir_exists e then mret (mk [])
  else if auto_ingest then _ ← ingest_documents false; mret (mk [])
  else raise (FileNotFoundError
    "Vector store not found at db/chroma_db. Run ingestion first or set auto_ingest=True").

Definition rewrite_instruction : BaseMessage :=
  SystemMessage
    "Given the chat history, rewrite the new question to be standalone and searchable. Just return the rewritten question.".

Definition _contextualize_question (user_question : string) : M (t * Env) string :=
  self ← get_self;
  match chat_history self with
  | [] => mret user_question
  | _ =>
      let messages :=
        [rewrite_instruction] ++ chat_history self ++
        [HumanMessage ("New question: " +:+ user_question)] in
      result ← in_env (invoke messages);
      mret (strip result)
  end.

Definition answer_instruction : BaseMessage :=
  SystemMessage
    "You are a helpful assistant that answers questions based on provided documents and conversation history.".

(** The grounded prompt of step 3. *)
Definition combined_input (message : string) (docs : list Document) : string :=
  "Based on the following documents, please answer this question: " +:+ message
  +:+ chr 10 +:+ chr 10 +:+ "Documents:" +:+ chr 10
  +:+ join (chr 10) ((fun doc => "- " +:+ page_content doc) <$> docs)
  +:+ chr 10 +:+ chr 10
  +:+ "Please provide a clear, helpful answer using only the information from these documents. If you can't find the answer in the documents, say "
  +:+ chr 34
  +:+ "I don't have enough information to answer that question based on the provided documents."
  +:+ chr 34 +:+ chr 10.

Definition source_of (doc : Document) : Source :=
  mkSource (page_content doc) (metadata doc).

Definition chat (message : string) (k : Z) (verbose : bool)
  : M (t * Env) (gmap string PyVal) :=
  (* Step 1: contextualize the question using chat history *)
  search_question ← _contextualize_question message;
  (* Step 2: retrieve relevant documents *)
  docs ← in_env (retriever_invoke k search_question);
  (* Step 3: generate answer with context *)
  self ← get_self;
  let messages :=
    [answer_instruction] ++ chat_history self ++
    [HumanMessage (combined_input message docs)] in
  answer ← in_env (invoke messages);
  (* Step 4: update chat history *)
  _ ← history_append (HumanMessage message);
  _ ← history_append (AIMessage answer);
  (* Step 5: prepare response *)
  let response : gmap string PyVal :=
    {[ "message" := VStr message; "answer" := VStr answer ]} in
  if verbose then
    mret (<["num_sources" := VInt (Z.of_nat (length docs))]>
          (<["sources" := VSources (source_of <$> docs)]>
           (<["contextualized_question" :=
                if bool_decide (search_question = message)
                then VNone else VStr search_question]> response)))
  else mret response.

Definition clear_history : M (t * Env) unit := put_self (mk []).

Definition get_history : M (t * Env) (list BaseMessage) :=
  self ← get_self; mret (chat_history self).

Definition get_history_length : M (t * Env) Z :=
  self ← get_self; mret (Z.of_nat (length (chat_history self))).

End Methods.
End RAGChatbot.

(** ** [pdf_processor.py]: class [PDFProcessor] *)

Module PDFProcessor.
Section Methods.
Context `{Providers}.

(** The object: whether [self.db] is a collection handle ([true]) or
    [None] ([false]). *)
Record t := mk { db : bool }.

Definition __init__ : M Env t :=
  e ← get_state;
  mret (mk (persist_dir_exists e)).

(** Copies the upload to [docs/<session_id>/<filename>].  Directories are
    not modelled; the copy raises when the source file is missing. *)
Definition save_uploaded_pdf (source_path session_id filename : string)
  : M (t * Env) string :=
  let dest_path := "docs/" +:+ session_id +:+ "/" +:+ filename in
  e ← in_env get_state;
  match files e !! source_path with
  | None => raise (FileNotFoundError source_path)
  | Some f =>
      _ ← in_env (put_state (set_files (<[dest_path := f]> (files e)) e));
      mret dest_path
  end.

(** The loop over [reader.pages]: [text] grows by one banner and one page
    text per page; a page whose extraction raises aborts the loop. *)
Fixpoint extract_pages (pages : list (outcome string)) (page_num : nat)
    (text : string) : outcome string :=
  match pages with
  | [] => Return text
  | Return page_text :: rest =>
      extract_pages rest (S page_num)
        (text +:+ chr 10 +:+ "--- Page " +:+ pretty (page_num + 1) +:+ " ---"
              +:+ chr 10 +:+ page_text +:+ chr 10)
  | Raise e :: _ => Raise e
  end.

(** Any exception is turned into the empty string. *)
Definition extract_text_from_pdf (pdf_path : string) : M (t * Env) string :=
  e ← in_env get_state;
  match files e !! pdf_path with
  | Some (Pdf pages) =>
      match extract_pages pages 0 EmptyString with
      | Return text => mret text
      | Raise _ => mret EmptyString
      end
  | _ => mret EmptyString
  end.

Definition create_documents (text source session_id filename : string)
    (chunk_size chunk_overlap : Z) : list Document :=
  let chunks := split_text chunk_size chunk_overlap (chr 10) text in
  imap (fun i chunk =>
    mkDocument chunk
      {[ "source" := MStr source;
         "filename" := MStr filename;
         "session_id" := MStr session_id;
         "chunk_index" := MInt (Z.of_nat i);
         "total_chunks" := MInt (Z.of_nat (length chunks));
         "type" := MStr "uploaded_pdf" ]}) chunks.

(** Returns the number of documents added, and 0 when anything raised. *)
Definition add_to_vector_store (documents : list Document) : M (t * Env) Z :=
  try_except
    (self ← get_self;
     _ ← (if db self
          then in_env (add_documents documents)
          else _ ← in_env (from_documents documents); put_self (mk true));
     mret (Z.of_nat (length documents)))
    (fun _ => mret 0%Z).

Definition process_uploaded_pdf (temp_path session_id original_filename : string)
  : M (t * Env) (gmap string PyVal) :=
  try_except
    ((* 1. save to docs directory *)
     saved_path ← save_uploaded_pdf temp_path session_id original_filename;
     (* 2. extract text *)
     text ← extract_text_from_pdf saved_path;
     match text with
     | EmptyString =>
         mret {[ "success" := VBool false;
                 "error" := VStr "Failed to extract text from PDF";
                 "chunks_created" := VInt 0 ]}
     | _ =>
         (* 3. create documents with metadata *)
         let documents :=
           create_documents text saved_path session_id original_filename 1000 200 in
         (* 4. add to vector store *)
         chunks_added ← add_to_vector_store documents;
         if bool_decide (chunks_added > 0)%Z
         then mret {[ "success" := VBool true;
                      "saved_path" := VStr saved_path;
                      "chunks_created" := VInt chunks_added;
                      "text_length" := VInt (len_str text) ]}
         else mret {[ "success" := VBool false;
                      "error" := VStr "Failed to add to vector store";
                      "chunks_created" := VInt 0 ]}
     end)
    (fun e => mret {[ "success" := VBool false;
                      "error" := VStr (str e);
                      "chunks_created" := VInt 0 ]}).

End Methods.
End PDFProcessor.

(** ** [rag_chatbot.py]: session management *)

Section Sessions.
Context `{Providers}.

(** The process: the global session dictionary, the [pdf_processor] object
    of [api.py], and the environment. *)
Record World := mkWorld {
  _conversation_sessions : gmap string RAGChatbot.t;
  pdf_processor : PDFProcessor.t;
  env : Env
}.

Definition on_env {A} (m : M Env A) : M World A := fun w =>
  let '(r, e') := m (env w) in
  (r, mkWorld (_conversation_sessions w) (pdf_processor w) e').

Definition set_sessions (s : gmap string RAGChatbot.t) : M World unit := fun w =>
  (Return tt, mkWorld s (pdf_processor w) (env w)).

(** [_conversation_sessions[session_id].method(...)]: the dictionary holds
    the object itself, so what the method does to it is seen through the
    dictionary afterwards, also when the method raises. *)
Definition call_method {A} (session_id : string)
    (method : M (RAGChatbot.t * Env) A) : M World A := fun w =>
  match _conversation_sessions w !! session_id with
  | None => (Raise (KeyError session_id), w)
  | Some chatbot =>
      let '(r, (chatbot', e')) := method (chatbot, env w) in
      (r, mkWorld (<[session_id := chatbot']> (_conversation_sessions w))
                  (pdf_processor w) e')
  end.

(** [pdf_processor.method(...)] *)
Definition call_pdf_processor {A} (method : M (PDFProcessor.t * Env) A)
  : M World A := fun w =>
  let '(r, (p', e')) := method (pdf_processor w, env w) in
  (r, mkWorld (_conversation_sessions w) p' e').

Definition get_chatbot (session_id : string) : M World RAGChatbot.t :=
  w ← get_state;
  match _conversation_sessions w !! session_id with
  | Some chatbot => mret chatbot
  | None =>
      chatbot ← on_env (RAGChatbot.__init__ true);
      _ ← set_sessions (<[session_id := chatbot]> (_conversation_sessions w));
      mret chatbot
  end.

Definition clear_session_history (session_id : string) : M World bool :=
  w ← get_state;
  match _conversation_sessions w !! session_id with
  | Some _ =>
      _ ← call_method session_id RAGChatbot.clear_history;
      mret true
  | None => mret false
  end.

Definition delete_session (session_id : string) : M World bool :=
  w ← get_state;
  match _conversation_sessions w !! session_id with
  | Some _ =>
      _ ← set_sessions (delete session_id (_conversation_sessions w));
      mret true
  | None => mret false
  end.

(** The history length of a session, [None] when the session is absent. *)
Definition get_session_info (session_id : string) : M World (option Z) :=
  w ← get_state;
  match _conversation_sessions w !! session_id with
  | Some _ =>
      n ← call_method session_id RAGChatbot.get_history_length;
      mret (Some n)
  | None => mret None
  end.

End Sessions.

(** ** [api.py]: the chat endpoints *)

Module api.
Section Endpoints.
Context `{Providers}.

Record ChatRequest := mkChatRequest {
  message : string;
  session_id : option string;
  k : Z;
  verbose : bool
}.

(** [POST /chat].  [uuid4] is the value [str(uuid.uuid4())] takes in this
    request when it is needed. *)
Definition chat (request : ChatRequest) (uuid4 : string)
  : M World (gmap string PyVal) :=
  try_except
    (let sid :=
       match session_id request with
       | Some (String c s) => String c s
       | _ => uuid4
       end in
     _ ← get_chatbot sid;
     response ← call_method sid
       (RAGChatbot.chat (message request) (k request) (verbose request));
     mret (<["session_id" := VStr sid]> response))
    (fun e => raise (HTTPException 500 (str e))).

(** [POST /chat/clear/{session_id}] *)
Definition clear_history (session_id : string) : M World string :=
  success ← clear_session_history session_id;
  if success : bool
  then mret ("History cleared for session " +:+ session_id)
  else mret ("Session " +:+ session_id +:+ " not found").

End Endpoints.
End api.

(** ** A concrete set of providers

    Used to run the definitions: embeddings are the texts themselves,
    similarity is the length of the common prefix, the completion model
    echoes the last message, and the splitter closes a chunk at every
    separator character. *)

Module Mock.

Fixpoint common_prefix (a b : string) : nat :=
  match a, b with
  | String x a', String y b' =>
      if Ascii.eqb x y then S (common_prefix a' b') else 0
  | _, _ => 0
  end.

Fixpoint split_on (c : Ascii.ascii) (s : string) (cur : string) : list string :=
  match s with
  | EmptyString => [cur]
  | String x s' =>
      if Ascii.eqb x c then cur :: split_on c s' EmptyString
      else split_on c s' (cur +:+ String x EmptyString)
  end.

Definition nonempty (s : string) : bool :=
  match s with EmptyString => false | _ => true end.

Definition split_at_separator (chunk_size chunk_overlap : Z)
    (separator text : string) : list string :=
  match separator with
  | String c _ => List.filter nonempty (split_on c text EmptyString)
  | EmptyString => [text]
  end.

Definition echo (n : nat) (messages : list BaseMessage) : outcome string :=
  Return (" echo: " +:+ from_option content EmptyString (last messages) +:+ " ").

Definition unavailable (n : nat) (messages : list BaseMessage) : outcome string :=
  Raise (ProviderError "completion provider unavailable").

(** The providers, for a given completion model. *)
Definition providers (llm : nat -> list BaseMessage -> outcome string)
  : Providers :=
  {| Vec := string;
     llm_invoke := llm;
     embed_query := fun _ text => Return text;
     embed_documents := fun _ texts => Return texts;
     similarity := fun q v => Z.of_nat (common_prefix q v);
     split_text := split_at_separator |}.

(** The same, with an embedding endpoint that is down. *)
Definition providers_no_embedding (llm : nat -> list BaseMessage -> outcome string)
  : Providers :=
  {| Vec := string;
     llm_invoke := llm;
     embed_query := fun _ _ => Raise (ProviderError "embedding endpoint unavailable");
     embed_documents := fun _ _ => Raise (ProviderError "embedding endpoint unavailable");
     similarity := fun q v => Z.of_nat (common_prefix q v);
     split_text := split_at_separator |}.

(** A completion model that answers [A<n>] to the [n]-th provider call. *)
Definition numbered (n : nat) (messages : list BaseMessage) : outcome string :=
  Return ("A" +:+ pretty n).

(** A chunk tagged with the session it was ingested under. *)
Definition chunk (text session : string) : Document :=
  mkDocument text {[ "session_id" := MStr session ]}.

(** An environment with a token, an existing collection holding the given
    chunks, no files and an empty call log. *)
Definition env (llm : nat -> list BaseMessage -> outcome string)
    (chunks : list Document) : @Env (providers llm) :=
  @mkEnv (providers llm) (Some "hf_token") true
    ((fun d => @mkIndexRecord (providers llm) (page_content d) d) <$> chunks)
    None ∅ [].

Definition env_no_embedding (llm : nat -> list BaseMessage -> outcome string)
    (chunks : list Document) : @Env (providers_no_embedding llm) :=
  @mkEnv (providers_no_embedding llm) (Some "hf_token") true
    ((fun d => @mkIndexRecord (providers_no_embedding llm) (page_content d) d) <$> chunks)
    None ∅ [].

(** A process with no session yet. *)
Definition world (llm : nat -> list BaseMessage -> outcome string)
    (chunks : list Document) : @World (providers llm) :=
  @mkWorld (providers llm) ∅ (PDFProcessor.mk true) (env llm chunks).

(** A process with an uploaded file waiting at [/tmp/upload.pdf] and an
    empty collection. *)
Definition world_with_upload (llm : nat -> list BaseMessage -> outcome string)
    (pages : list (outcome string)) : @World (providers llm) :=
  @mkWorld (providers llm) ∅ (PDFProcessor.mk true)
    (set_files {[ "/tmp/upload.pdf" := Pdf pages ]} (env llm [])).

End Mock.

(** ** Vocabulary of the properties *)

Section Vocabulary.
Context `{Providers}.

Implicit Types (self : RAGChatbot.t) (e : Env) (message query : string)
  (k : Z) (verbose : bool) (x : exception).

(** The messages of the rewrite call and of the generation call. *)
Definition rewrite_messages self message : list BaseMessage :=
  [RAGChatbot.rewrite_instruction] ++ RAGChatbot.chat_history self ++
  [HumanMessage ("New question: " +:+ message)].

Definition answer_messages self message (docs : list Document)
  : list BaseMessage :=
  [RAGChatbot.answer_instruction] ++ RAGChatbot.chat_history self ++
  [HumanMessage (RAGChatbot.combined_input message docs)].

(** The dictionary [chat] returns. *)
Definition response_of message (answer query : string) (docs : list Document)
    verbose : gmap string PyVal :=
  let response : gmap string PyVal :=
    {[ "message" := VStr message; "answer" := VStr answer ]} in
  if verbose then
    <["num_sources" := VInt (Z.of_nat (length docs))]>
      (<["sources" := VSources (RAGChatbot.source_of <$> docs)]>
       (<["contextualized_question" :=
            if bool_decide (query = message) then VNone else VStr query]>
        response))
  else response.

(** A completion call whose first message is the rewrite instruction. *)
Definition is_rewrite_call (c : Call) : bool :=
  match c with
  | LLMInvoke (SystemMessage s :: _) =>
      bool_decide (s = content RAGChatbot.rewrite_instruction)
  | _ => false
  end.

(** Some step of [chat] on the object [self] raises [x]: the rewrite call,
    the retrieval, or the generation call. *)
Definition step_raises message k self e x : Prop :=
  (∃ s1, RAGChatbot._contextualize_question message (self, e) = (Raise x, s1))
  ∨ (∃ query s1 e2,
       RAGChatbot._contextualize_question message (self, e) = (Return query, s1)
       ∧ retriever_invoke k query s1.2 = (Raise x, e2))
  ∨ (∃ query s1 docs e2 e3,
       RAGChatbot._contextualize_question message (self, e) = (Return query, s1)
       ∧ retriever_invoke k query s1.2 = (Return docs, e2)
       ∧ invoke (answer_messages self message docs) e2 = (Raise x, e3)).

(** The session a [POST /chat] request is applied to: the one it names, or
    the generated one when it names none (or the empty string). *)
Definition session_of (request : api.ChatRequest) (uuid4 : string) : string :=
  match api.session_id request with
  | Some (String c s) => String c s
  | _ => uuid4
  end.

(** The ["sources"] of a returned dictionary. *)
Definition sources_of (out : outcome (gmap string PyVal)) : option (list Source) :=
  match out with
  | Return response =>
      match response !! "sources" with
      | Some (VSources l) => Some l
      | _ => None
      end
  | Raise _ => None
  end.

(** The dictionary [process_uploaded_pdf] returns for a failed ingest. *)
Definition failure_result (error : string) : gmap string PyVal :=
  {[ "success" := VBool false;
     "error" := VStr error;
     "chunks_created" := VInt 0 ]}.


(** *** Sequences of operations on one chatbot *)

Inductive Op :=
| Chat (message : string) (k : Z) (verbose : bool)
| ClearHistory.

(** One operation.  An exception of [chat] goes to the caller, who carries
    on with the object as the call left it. *)
Definition run_op (op : Op) (s : RAGChatbot.t * Env) : RAGChatbot.t * Env :=
  match op with
  | Chat message k verbose => (RAGChatbot.chat message k verbose s).2
  | ClearHistory => (RAGChatbot.clear_history s).2
  end.

Definition run (ops : list Op) (s : RAGChatbot.t * Env) : RAGChatbot.t * Env :=
  foldl (fun s op => run_op op s) s ops.

(** Human and AI turns alternate, a human turn first, an AI turn last. *)
Fixpoint alternating (history : list BaseMessage) : bool :=
  match history with
  | [] => true
  | HumanMessage _ :: AIMessage _ :: rest => alternating rest
  | _ => false
  end.

Definition human_turns (history : list BaseMessage) : list string :=
  omap (fun m => match m with HumanMessage c => Some c | _ => None end) history.

(** The messages of all the [chat] calls of a sequence, in call order. *)
Definition chat_messages (ops : list Op) : list string :=
  omap (fun op => match op with Chat m _ _ => Some m | ClearHistory => None end) ops.

(** The messages of the [chat] calls that returned since the last
    [clear_history], in call order; [kept] are those before [ops]. *)
Fixpoint kept_messages (ops : list Op) (s : RAGChatbot.t * Env)
    (kept : list string) : list string :=
  match ops with
  | [] => kept
  | op :: ops' =>
      kept_messages ops' (run_op op s)
        match op with
        | ClearHistory => []
        | Chat message k verbose =>
            match (RAGChatbot.chat message k verbose s).1 with
            | Return _ => kept ++ [message]
            | Raise _ => kept
            end
        end
  end.

End Vocabulary.

(** ** Vocabulary of the further properties *)

(** What one page adds to the extracted text: its banner, numbered from 1,
    and its text. *)
Definition page_block (page_num : nat) (page_text : string) : string :=
  chr 10 +:+ "--- Page " +:+ pretty (page_num + 1) +:+ " ---"
  +:+ chr 10 +:+ page_text +:+ chr 10.

(** The blocks of the pages numbered from [page_num] on, one after the
    other. *)
Fixpoint page_blocks (page_num : nat) (page_texts : list string) : string :=
  match page_texts with
  | [] => EmptyString
  | page_text :: rest =>
      page_block page_num page_text +:+ page_blocks (S page_num) rest
  end.

(** ** [pdf_processor.py]: the files and embeddings of a session *)

(** What the file system and the collection may refuse: an exception of
    [file_path.unlink()], of [self.db.get(where=...)] for a session, and of
    [self.db.delete(ids=...)]. *)
Class Faults := {
  unlink_fault : string -> option exception;
  index_get_fault : string -> option exception;
  index_delete_fault : option exception
}.

(** Values of the dictionary returned by [get_session_stats]. *)
Inductive StatVal :=
| SStr (s : string)
| SInt (z : Z)
| SNames (names : list string).

Fixpoint strip_prefix (prefix s : string) : option string :=
  match prefix with
  | EmptyString => Some s
  | String c prefix' =>
      match s with
      | String d s' => if Ascii.eqb c d then strip_prefix prefix' s' else None
      | EmptyString => None
      end
  end.

Fixpoint has_char (c : Ascii.ascii) (s : string) : bool :=
  match s with
  | EmptyString => false
  | String d s' => Ascii.eqb c d || has_char c s'
  end.

(** [s.endswith(suffix)] *)
Definition endswith (s suffix : string) : bool :=
  (String.length suffix <=? String.length s)
  && String.eqb
       (String.substring (String.length s - String.length suffix)
          (String.length suffix) s)
       suffix.

(** The name of [path] when it is a file of the directory [dir] itself that
    the pattern [*.pdf] matches. *)
Definition pdf_name (dir path : string) : option string :=
  match strip_prefix (dir +:+ "/") path with
  | Some name =>
      if negb (has_char (Ascii.ascii_of_nat 47) name) && endswith name ".pdf"
      then Some name else None
  | None => None
  end.

Module SessionFiles.
Section Methods.
Context `{Providers} `{Faults}.

(** [session_dir.glob("*.pdf")], the paths with their names.  Directories
    are not modelled: a directory that does not exist has no file. *)
Definition glob_pdf (session_dir : string) (fs : gmap string PdfFile)
  : list (string * string) :=
  omap (fun path => (fun name => (path, name)) <$> pdf_name session_dir path)
       (map_to_list fs).*1.

Definition get_session_files (session_id : string)
  : M (PDFProcessor.t * Env) (list (string * string)) :=
  e ← in_env get_state;
  mret (glob_pdf ("docs/" +:+ session_id) (files e)).

(** [file_path.unlink()] *)
Definition unlink (path : string) : M Env unit :=
  match unlink_fault path with
  | Some x => raise x
  | None => e ← get_state; put_state (set_files (delete path (files e)) e)
  end.

(** The loop over the files of the session: unlink, count. *)
Fixpoint unlink_all (paths : list string) (deleted_count : Z) : M Env Z :=
  match paths with
  | [] => mret deleted_count
  | path :: rest =>
      _ ← unlink path;
      unlink_all rest (deleted_count + 1)%Z
  end.

(** Modelled from the spec: the identifiers of the records a metadata
    filter matches, an identifier being the position of the record in the
    collection. *)
Definition db_get (session_id : string) : M Env (list nat) :=
  match index_get_fault session_id with
  | Some x => raise x
  | None =>
      e ← get_state;
      mret (omap (fun '(i, r) =>
                    if where_matches {[ "session_id" := MStr session_id ]} (rec_doc r)
                    then Some i else None)
                 (imap (fun i r => (i, r)) (collection e)))
  end.

(** Modelled from the spec: [VectorIndex.delete], by identifiers. *)
Definition db_delete (ids : list nat) : M Env unit :=
  match index_delete_fault with
  | Some x => raise x
  | None =>
      e ← get_state;
      put_state
        (set_collection
           (omap (fun '(i, r) => if bool_decide (i ∈ ids) then None else Some r)
                 (imap (fun i r => (i, r)) (collection e))) e)
  end.

(** Returns the number of files deleted, and 0 when anything raised. *)
Definition delete_session_files (session_id : string)
  : M (PDFProcessor.t * Env) Z :=
  try_except
    (e ← in_env get_state;
     (* delete files from the docs directory *)
     deleted_count ← in_env
       (unlink_all (glob_pdf ("docs/" +:+ session_id) (files e)).*1 0);
     (* delete from the vector store *)
     self ← get_self;
     _ ← (if PDFProcessor.db self
          then ids ← in_env (db_get session_id);
               match ids with
               | [] => mret tt
               | _ => in_env (db_delete ids)
               end
          else mret tt);
     mret deleted_count)
    (fun _ => mret 0%Z).

Definition get_session_stats (session_id : string)
  : M (PDFProcessor.t * Env) (gmap string StatVal) :=
  try_except
    (files ← get_session_files session_id;
     self ← get_self;
     embeddings_count ←
       (if PDFProcessor.db self
        then ids ← in_env (db_get session_id);
             mret (Z.of_nat (length ids))
        else mret 0%Z);
     mret {[ "session_id" := SStr session_id;
             "files_count" := SInt (Z.of_nat (length files));
             "files" := SNames files.*2;
             "embeddings_count" := SInt embeddings_count ]})
    (fun x => mret {[ "session_id" := SStr session_id;
                      "error" := SStr (str x) ]}).

End Methods.
End SessionFiles.

(** No fault at all. *)
Definition no_faults : Faults :=
  {| unlink_fault := fun _ => None;
     index_get_fault := fun _ => None;
     index_delete_fault := None |}.

Section SessionVocabulary.
Context `{Providers}.

(** The record was ingested under the session: its metadata says so. *)
Definition tagged (session_id : string) (r : IndexRecord) : Prop :=
  metadata (rec_doc r) !! "session_id" = Some (MStr session_id).

#[global] Instance tagged_dec session_id r : Decision (tagged session_id r).
Proof. unfold tagged. apply _. Defined.

(** The statistics of a session without files and without embeddings. *)
Definition empty_stats (session_id : string) : gmap string StatVal :=
  {[ "session_id" := SStr session_id;
     "files_count" := SInt 0;
     "files" := SNames [];
     "embeddings_count" := SInt 0 ]}.

End SessionVocabulary.

(** * Properties *)

(** Unfolds the monad operations in the goal and in the hypotheses. *)
Ltac unfold_monad :=
  unfold mbind, M_bind, mret, M_ret, raise, get_state, put_state, try_except,
    in_env, get_self, put_self, provider_call in *.

Section ChatSteps.
Context `{Providers}.

Implicit Types (self : RAGChatbot.t) (e : Env) (message query : string)
  (k : Z) (verbose : bool) (x : exception).

Lemma contextualize_self message self e :
  (RAGChatbot._contextualize_question message (self, e)).2.1 = self.
Proof.
  unfold RAGChatbot._contextualize_question. unfold_monad. simpl.
  destruct (RAGChatbot.chat_history self); [done|].
  unfold invoke. unfold_monad. simpl. by destruct (llm_invoke _ _).
Qed.

Lemma contextualize_empty message self e :
  RAGChatbot.chat_history self = [] →
  RAGChatbot._contextualize_question message (self, e) = (Return message, (self, e)).
Proof.
  intros Hh. unfold RAGChatbot._contextualize_question. unfold_monad. simpl.
  by rewrite Hh.
Qed.

Lemma contextualize_nonempty message self e :
  RAGChatbot.chat_history self ≠ [] →
  RAGChatbot._contextualize_question message (self, e) =
    (match llm_invoke (length (calls e)) (rewrite_messages self message) with
     | Return result => Return (strip result)
     | Raise x => Raise x
     end,
     (self, set_calls (calls e ++ [LLMInvoke (rewrite_messages self message)]) e)).
Proof.
  intros Hh. unfold RAGChatbot._contextualize_question. unfold_monad. simpl.
  destruct (RAGChatbot.chat_history self) eqn:E; [done|].
  unfold invoke, rewrite_messages. unfold_monad. simpl. rewrite E.
  by destruct (llm_invoke _ _).
Qed.

(** [chat], step by step: the first step that raises ends the call with the
    object as it was; otherwise the two turns are appended. *)
Lemma chat_steps message k verbose self e :
  RAGChatbot.chat message k verbose (self, e) =
    match RAGChatbot._contextualize_question message (self, e) with
    | (Raise x, (_, e1)) => (Raise x, (self, e1))
    | (Return query, (_, e1)) =>
        match retriever_invoke k query e1 with
        | (Raise x, e2) => (Raise x, (self, e2))
        | (Return docs, e2) =>
            match invoke (answer_messages self message docs) e2 with
            | (Raise x, e3) => (Raise x, (self, e3))
            | (Return answer, e3) =>
                (Return (response_of message answer query docs verbose),
                 (RAGChatbot.mk (RAGChatbot.chat_history self ++
                                 [HumanMessage message; AIMessage answer]), e3))
            end
        end
    end.
Proof.
  pose proof (contextualize_self message self e) as Hself.
  unfold RAGChatbot.chat. unfold mbind at 1. unfold M_bind at 1.
  destruct (RAGChatbot._contextualize_question message (self, e))
    as [[query|x] [self1 e1]]; simpl in Hself; subst self1; [|done].
  unfold_monad. simpl.
  destruct (retriever_invoke k query e1) as [[docs|x] e2]; [|done]. simpl.
  unfold answer_messages, invoke, RAGChatbot.history_append. unfold_monad. simpl.
  destruct (llm_invoke _ _) as [answer|x]; [|done].
  rewrite <- app_assoc. simpl. unfold response_of. by destruct verbose.
Qed.

End ChatSteps.

Section ChatInversion.
Context `{Providers}.

Implicit Types (self : RAGChatbot.t) (e : Env) (message query : string)
  (k : Z) (verbose : bool) (x : exception).

Lemma invoke_steps (messages : list BaseMessage) e :
  invoke messages e =
    (llm_invoke (length (calls e)) messages,
     set_calls (calls e ++ [LLMInvoke messages]) e).
Proof. reflexivity. Qed.

Lemma retriever_steps k query e :
  retriever_invoke k query e =
    (match embed_query (length (calls e)) query with
     | Raise x => Raise x
     | Return q =>
         if bool_decide (k < 1)%Z
         then Raise (ValueError "Number of requested results cannot be negative, or zero.")
         else Return (rec_doc <$> take (Z.to_nat k)
                        (merge_sort (nearer q) (collection e)))
     end,
     set_calls (calls e ++ [EmbedQuery query]) e).
Proof.
  unfold retriever_invoke, similarity_search. unfold_monad. simpl.
  destruct (embed_query _ _); [|done]. by case_bool_decide.
Qed.

(** A call that returns went through the three steps. *)
Lemma chat_Return_inv message k verbose self e response s' :
  RAGChatbot.chat message k verbose (self, e) = (Return response, s') →
  ∃ query e1 docs e2 answer e3,
    RAGChatbot._contextualize_question message (self, e) = (Return query, (self, e1))
    ∧ retriever_invoke k query e1 = (Return docs, e2)
    ∧ invoke (answer_messages self message docs) e2 = (Return answer, e3)
    ∧ response = response_of message answer query docs verbose
    ∧ s' = (RAGChatbot.mk (RAGChatbot.chat_history self ++
                           [HumanMessage message; AIMessage answer]), e3).
Proof.
  rewrite chat_steps.
  pose proof (contextualize_self message self e) as Hself.
  destruct (RAGChatbot._contextualize_question message (self, e))
    as [[query|x] [self1 e1]]; simpl in Hself; subst self1; [|done].
  destruct (retriever_invoke k query e1) as [[docs|x] e2] eqn:Hdocs; [|done].
  destruct (invoke _ e2) as [[answer|x] e3] eqn:Hanswer; [|done].
  intros [= <- <-]. by exists query, e1, docs, e2, answer, e3.
Qed.

(** A call that raises leaves the object as it was. *)
Lemma chat_Raise_inv message k verbose self e x s' :
  RAGChatbot.chat message k verbose (self, e) = (Raise x, s') → s'.1 = self.
Proof.
  rewrite chat_steps.
  destruct (RAGChatbot._contextualize_question message (self, e))
    as [[query|?] [self1 e1]]; [|by intros [= <- <-]].
  destruct (retriever_invoke k query e1) as [[docs|?] e2]; [|by intros [= <- <-]].
  destruct (invoke _ e2) as [[answer|?] e3]; [done|by intros [= <- <-]].
Qed.


Lemma response_answer message answer query docs verbose :
  response_of message answer query docs verbose !! "answer" = Some (VStr answer).
Proof. by destruct verbose. Qed.

Lemma response_verbose message answer query docs :
  let response := response_of message answer query docs true in
  response !! "contextualized_question" =
    Some (if bool_decide (query = message) then VNone else VStr query)
  ∧ response !! "sources" = Some (VSources (RAGChatbot.source_of <$> docs))
  ∧ response !! "num_sources" = Some (VInt (Z.of_nat (length docs))).
Proof. done. Qed.

Lemma response_terse message answer query docs :
  dom (response_of message answer query docs false) = {[ "message"; "answer" ]}.
Proof. unfold response_of. set_solver. Qed.

End ChatInversion.

(** ** The chat turn *)

Section ChatTurn.
Context `{Providers}.

Implicit Types (self : RAGChatbot.t) (e : Env) (message query : string)
  (k : Z) (verbose : bool) (x : exception).

(** C1. On an object whose history is empty, [_contextualize_question]
    returns the raw message and calls no provider; [chat] sends the raw
    message to the retriever, makes besides that at most the generation
    call, none of its calls is a rewrite call, and with [verbose] the
    returned ["contextualized_question"] is [None]. *)
Theorem contextualization_short_circuit self e message k verbose :
  RAGChatbot.chat_history self = [] →
  RAGChatbot._contextualize_question message (self, e) = (Return message, (self, e))
  ∧ (∃ new_calls,
       calls (RAGChatbot.chat message k verbose (self, e)).2.2 =
         calls e ++ EmbedQuery message :: new_calls
       ∧ (new_calls = [] ∨
          ∃ docs, new_calls = [LLMInvoke (answer_messages self message docs)])
       ∧ forallb (fun c => negb (is_rewrite_call c))
           (EmbedQuery message :: new_calls) = true)
  ∧ (∀ response,
       (RAGChatbot.chat message k true (self, e)).1 = Return response →
       response !! "contextualized_question" = Some VNone).
Proof.
  intros Hempty. split; [by apply contextualize_empty|]. split.
  - rewrite chat_steps, contextualize_empty by done.
    rewrite retriever_steps.
    destruct (embed_query _ _) as [q|x]; cbn beta iota.
    2:{ exists []. simpl. auto. }
    case_bool_decide; cbn beta iota.
    { exists []. simpl. auto. }
    rewrite invoke_steps.
    match goal with |- context [answer_messages self message ?d] =>
      set (docs := d) end.
    destruct (llm_invoke _ _); cbn beta iota;
      exists [LLMInvoke (answer_messages self message docs)];
      simpl; rewrite <- ?app_assoc; simpl; eauto.
  - intros response Hr.
    destruct (RAGChatbot.chat message k true (self, e)) as [r s'] eqn:Hchat.
    simpl in Hr. subst r.
    apply chat_Return_inv in Hchat
      as (query & e1 & docs & e2 & answer & e3 & Hq & _ & _ & -> & _).
    rewrite contextualize_empty in Hq by done. injection Hq as <- <-.
    destruct (response_verbose message answer message docs) as [-> _].
    by rewrite bool_decide_eq_true_2.
Qed.

(** C2. A call of [chat] that returns appends exactly two turns to the
    history: the human turn with the original message, then the AI turn
    with the returned answer, whatever was retrieved.  A second call that
    returns appends its own two turns after them, so that from an empty
    history the result is [human Q1, ai A1, human Q2, ai A2]. *)
Theorem history_append_ordering self e q1 k1 v1 r1 s1 :
  RAGChatbot.chat q1 k1 v1 (self, e) = (Return r1, s1) →
  ∃ a1,
    r1 !! "answer" = Some (VStr a1)
    ∧ RAGChatbot.chat_history s1.1 =
        RAGChatbot.chat_history self ++ [HumanMessage q1; AIMessage a1]
    ∧ ∀ q2 k2 v2 r2 s2,
        RAGChatbot.chat q2 k2 v2 s1 = (Return r2, s2) →
        ∃ a2,
          r2 !! "answer" = Some (VStr a2)
          ∧ RAGChatbot.chat_history s2.1 =
              RAGChatbot.chat_history self ++
              [HumanMessage q1; AIMessage a1; HumanMessage q2; AIMessage a2].
Proof.
  intros H1.
  apply chat_Return_inv in H1
    as (query & e1 & docs & e2 & a1 & e3 & _ & _ & _ & -> & ->).
  exists a1. split; [apply response_answer|]. split; [done|].
  intros q2 k2 v2 r2 s2 H2.
  apply chat_Return_inv in H2
    as (query' & e1' & docs' & e2' & a2 & e3' & _ & _ & _ & -> & ->).
  exists a2. split; [apply response_answer|]. simpl.
  by rewrite <- app_assoc.
Qed.

(** C3. When a step of [chat] raises (the rewrite call, the retrieval or
    the generation call), [chat] raises the same exception to its caller and
    the object, hence its history, is as it was before the call; and [chat]
    raises in no other case. *)
Theorem chat_failure_keeps_history self e message k verbose x :
  step_raises message k self e x
  ∨ (RAGChatbot.chat message k verbose (self, e)).1 = Raise x →
  step_raises message k self e x
  ∧ (RAGChatbot.chat message k verbose (self, e)).1 = Raise x
  ∧ (RAGChatbot.chat message k verbose (self, e)).2.1 = self.
Proof.
  pose proof (contextualize_self message self e) as Hself.
  unfold step_raises. rewrite chat_steps.
  destruct (RAGChatbot._contextualize_question message (self, e))
    as [[query|x1] [self1 e1]] eqn:Hq; simpl in Hself; subst self1.
  2:{ intros [[(s1 & ?) | [(? & ? & ? & ? & _) | (? & ? & ? & ? & ? & ? & _)]] | Hr];
        simplify_eq/=; eauto 10. }
  destruct (retriever_invoke k query e1) as [[docs|x2] e2] eqn:Hdocs.
  2:{ intros [[(s1 & ?) | [(? & ? & ? & ? & Hd) | (? & ? & ? & ? & ? & ? & Hd & _)]] | Hr];
        simplify_eq/=; try (rewrite Hdocs in Hd; simplify_eq);
        (split; [right; left; eauto 10|done]). }
  destruct (invoke _ e2) as [[answer|x3] e3] eqn:Ha.
  - intros [[(s1 & ?) | [(? & ? & ? & ? & Hd) | (? & ? & ? & ? & ? & ? & Hd & Hi)]] | Hr];
      simplify_eq/=; rewrite Hdocs in Hd; simplify_eq.
    rewrite Ha in Hi. simplify_eq.
  - intros [[(s1 & ?) | [(? & ? & ? & ? & Hd) | (? & ? & ? & ? & ? & ? & Hd & Hi)]] | Hr];
      simplify_eq/=; try (rewrite Hdocs in Hd; simplify_eq);
      try (rewrite Ha in Hi; simplify_eq);
      (split; [right; right; eauto 10|done]).
Qed.

End ChatTurn.

(** *** The chat turn on concrete providers *)

Lemma contextualization_short_circuit_witness :
  RAGChatbot.chat_history (RAGChatbot.mk []) = []
  ∧ @RAGChatbot._contextualize_question (Mock.providers Mock.echo) "What is X?"
      (RAGChatbot.mk [], Mock.env Mock.echo [Mock.chunk "X is a letter" "s1"])
    = (Return "What is X?",
       (RAGChatbot.mk [], Mock.env Mock.echo [Mock.chunk "X is a letter" "s1"])).
Proof.
  split; [reflexivity|].
  exact (proj1 (@contextualization_short_circuit (Mock.providers Mock.echo)
                  (RAGChatbot.mk [])
                  (Mock.env Mock.echo [Mock.chunk "X is a letter" "s1"])
                  "What is X?" 3%Z true eq_refl)).
Defined.

Lemma history_append_ordering_witness :
  ∃ r1 s1,
    @RAGChatbot.chat (Mock.providers Mock.numbered) "Q1" 3 false
      (RAGChatbot.mk [], Mock.env Mock.numbered []) = (Return r1, s1)
    ∧ ∃ a1, r1 !! "answer" = Some (VStr a1)
        ∧ RAGChatbot.chat_history s1.1 = [HumanMessage "Q1"; AIMessage a1].
Proof.
  destruct (@RAGChatbot.chat (Mock.providers Mock.numbered) "Q1" 3 false
              (RAGChatbot.mk [], Mock.env Mock.numbered []))
    as [[r1|x] s1] eqn:E.
  - exists r1, s1. split; [reflexivity|].
    destruct (history_append_ordering _ _ _ _ _ _ _ E) as (a1 & Ha & Hh & _).
    exists a1. split; [exact Ha | exact Hh].
  - vm_compute in E. discriminate E.
Defined.

Lemma chat_failure_keeps_history_witness :
  let P := Mock.providers Mock.unavailable in
  let self := RAGChatbot.mk [HumanMessage "Q0"; AIMessage "A0"] in
  let e := Mock.env Mock.unavailable [Mock.chunk "X is a letter" "s1"] in
  let x := ProviderError "completion provider unavailable" in
  step_raises "What is X?" 3 self e x
  ∧ (RAGChatbot.chat "What is X?" 3 true (self, e)).1 = Raise x
  ∧ (RAGChatbot.chat "What is X?" 3 true (self, e)).2.1 = self.
Proof.
  intros P self e x.
  apply (@chat_failure_keeps_history P self e "What is X?" 3%Z true x).
  left. left. eexists. vm_compute. reflexivity.
Defined.

(** The two-call scenario, run: the history is [human Q1, ai A1, human Q2,
    ai A2]; the answers are those of provider calls 1 and 4, the rewrite of
    the second question being call 2. *)
Example chat_twice :
  let s1 := (@RAGChatbot.chat (Mock.providers Mock.numbered) "Q1" 3 false
               (RAGChatbot.mk [], Mock.env Mock.numbered [])).2 in
  let s2 := (RAGChatbot.chat "Q2" 3 false s1).2 in
  RAGChatbot.chat_history s2.1 =
    [HumanMessage "Q1"; AIMessage "A1"; HumanMessage "Q2"; AIMessage "A4"].
Proof. vm_compute. reflexivity. Qed.

(** A first question is not rewritten; a follow-up is, and the rewritten
    question (stripped) is reported. *)
Example chat_verbose_first_and_follow_up :
  let out1 := @RAGChatbot.chat (Mock.providers Mock.echo) "What is X?" 3 true
                (RAGChatbot.mk [], Mock.env Mock.echo [Mock.chunk "X is a letter" "s1"]) in
  let out2 := RAGChatbot.chat "And Y?" 3 true out1.2 in
  (match out1.1 with Return r => r !! "contextualized_question" | Raise _ => None end)
    = Some VNone
  ∧ (match out2.1 with Return r => r !! "contextualized_question" | Raise _ => None end)
    = Some (VStr "echo: New question: And Y?")
  ∧ (match out2.1 with Return r => r !! "num_sources" | Raise _ => None end)
    = Some (VInt 1).
Proof. vm_compute. auto. Qed.

(** With the embedding endpoint down the retrieval raises and nothing is
    appended. *)
Example chat_retrieval_down :
  let out := @RAGChatbot.chat (Mock.providers_no_embedding Mock.echo) "What is X?" 3 true
               (RAGChatbot.mk [], Mock.env_no_embedding Mock.echo []) in
  out.1 = Raise (ProviderError "embedding endpoint unavailable")
  ∧ RAGChatbot.chat_history out.2.1 = [].
Proof. vm_compute. auto. Qed.

(** ** The chat endpoint and the session store *)

Section Sessions.
Context `{Providers}.

Implicit Types (w : World) (session_id : string).

Lemma get_chatbot_Return session_id w chatbot w1 :
  get_chatbot session_id w = (Return chatbot, w1) →
  _conversation_sessions w1 !! session_id = Some chatbot.
Proof.
  unfold get_chatbot. unfold_monad. simpl.
  destruct (_conversation_sessions w !! session_id) as [c|] eqn:Hs.
  - by intros [= <- <-].
  - unfold on_env, set_sessions.
    destruct (RAGChatbot.__init__ true (env w)) as [[c|x] e']; [|done].
    intros [= <- <-]. simpl. by rewrite lookup_insert_eq.
Qed.

Lemma call_method_present {A} session_id (method : M (RAGChatbot.t * Env) A)
    w chatbot :
  _conversation_sessions w !! session_id = Some chatbot →
  call_method session_id method w =
    ((method (chatbot, env w)).1,
     mkWorld (<[session_id := (method (chatbot, env w)).2.1]> (_conversation_sessions w))
             (pdf_processor w) (method (chatbot, env w)).2.2).
Proof.
  intros Hs. unfold call_method. rewrite Hs.
  by destruct (method (chatbot, env w)) as [r [c' e']].
Qed.


End Sessions.

(** [POST /chat] twice on one session, terse then verbose. *)
Example chat_endpoint :
  let w0 := Mock.world Mock.numbered [Mock.chunk "X is a letter" "s1"] in
  let out1 := api.chat (api.mkChatRequest "Q1" (Some "s1") 3 false) "generated" w0 in
  let out2 := api.chat (api.mkChatRequest "Q2" None 3 true) "generated" out1.2 in
  (match out1.1 with Return r => map_to_list r | Raise _ => [] end)
    ≡ₚ [("message", VStr "Q1"); ("answer", VStr "A1"); ("session_id", VStr "s1")]
  ∧ (match out2.1 with Return r => dom r | Raise _ => ∅ end)
    = {[ "message"; "answer"; "session_id"; "contextualized_question";
         "sources"; "num_sources" ]}
  ∧ (match out2.1 with Return r => r !! "session_id" | Raise _ => None end)
    = Some (VStr "generated")
  ∧ dom (_conversation_sessions out2.2) = {[ "s1"; "generated" ]}.
Proof.
  split_and!.
  - vm_compute. by rewrite (Permutation_swap _ _ [_]), (Permutation_swap _ _ []).
  - apply (bool_decide_unpack _). vm_compute. exact I.
  - vm_compute. reflexivity.
  - apply (bool_decide_unpack _). vm_compute. exact I.
Qed.

(** ** Retrieval *)

Section Retrieval.
Context `{Providers}.

Implicit Types (self : RAGChatbot.t) (e : Env) (message query : string) (k : Z).

#[local] Instance nearer_trans (q : Vec) : Transitive (nearer q).
Proof. unfold nearer. intros r1 r2 r3. lia. Qed.

#[local] Instance nearer_total (q : Vec) : Total (nearer q).
Proof. unfold nearer. intros r1 r2. lia. Qed.

Lemma StronglySorted_take {A} (R : relation A) (n : nat) (l : list A) :
  StronglySorted R l → StronglySorted R (take n l).
Proof.
  intros Hl. revert n. induction Hl as [|a l Hl IH Ha]; intros [|n]; simpl;
    try constructor.
  - apply IH.
  - apply Forall_take, Ha.
Qed.

(** The records a query returns: nearest first, at most [k]. *)
Lemma ranked_sorted_bounded (q : Vec) k (records : list IndexRecord) :
  (1 ≤ k)%Z →
  let ranked := take (Z.to_nat k) (merge_sort (nearer q) records) in
  StronglySorted (nearer q) ranked
  ∧ (0 ≤ Z.of_nat (length ranked) ≤ k)%Z
  ∧ ranked ⊆ records.
Proof.
  intros Hk ranked. split_and!.
  - apply StronglySorted_take, StronglySorted_merge_sort; apply _.
  - lia.
  - unfold ranked. rewrite length_take. lia.
  - intros r Hr. apply subseteq_take in Hr.
    by rewrite merge_sort_Permutation in Hr.
Qed.

(** C6. A verbose call of [chat] with [k >= 1] that returns reports, as
    ["sources"], the content and metadata of the retrieved records in the
    order of the ranking (nearest first), as ["num_sources"] the length of
    that list, which lies between 0 and [k], and as
    ["contextualized_question"] [None] exactly when the search question
    equals the message, the search question otherwise. *)
Theorem verbose_sources self e message k response s' :
  (1 ≤ k)%Z →
  RAGChatbot.chat message k true (self, e) = (Return response, s') →
  ∃ query e1 (q : Vec) (ranked : list IndexRecord) (sources : list Source),
    RAGChatbot._contextualize_question message (self, e) = (Return query, (self, e1))
    ∧ embed_query (length (calls e1)) query = Return q
    ∧ ranked = take (Z.to_nat k) (merge_sort (nearer q) (collection e))
    ∧ StronglySorted (nearer q) ranked
    ∧ sources =
        (fun r => mkSource (page_content (rec_doc r)) (metadata (rec_doc r)))
          <$> ranked
    ∧ response !! "sources" = Some (VSources sources)
    ∧ response !! "num_sources" = Some (VInt (Z.of_nat (length sources)))
    ∧ (0 ≤ Z.of_nat (length sources) ≤ k)%Z
    ∧ (response !! "contextualized_question" = Some VNone ↔ query = message)
    ∧ (query ≠ message →
       response !! "contextualized_question" = Some (VStr query)).
Proof.
  intros Hk Hchat.
  apply chat_Return_inv in Hchat
    as (query & e1 & docs & e2 & answer & e3 & Hq & Hdocs & _ & -> & _).
  assert (collection e1 = collection e) as Hcoll.
  { destruct (decide (RAGChatbot.chat_history self = [])) as [Hh|Hh].
    - rewrite contextualize_empty in Hq by done. by injection Hq as _ <-.
    - rewrite contextualize_nonempty in Hq by done. by injection Hq as _ <-. }
  rewrite retriever_steps in Hdocs.
  destruct (embed_query _ _) as [q|x] eqn:Hembed; [|done].
  rewrite bool_decide_eq_false_2 in Hdocs by lia. injection Hdocs as <- _.
  rewrite Hcoll.
  destruct (ranked_sorted_bounded q k (collection e) Hk) as (Hsorted & Hbound & _).
  eexists query, e1, q, _, _. split_and!; try done.
  - destruct (response_verbose message answer query
                (rec_doc <$> take (Z.to_nat k) (merge_sort (nearer q) (collection e))))
      as (_ & -> & _).
    by rewrite <- list_fmap_compose.
  - destruct (response_verbose message answer query
                (rec_doc <$> take (Z.to_nat k) (merge_sort (nearer q) (collection e))))
      as (_ & _ & ->).
    by rewrite !length_fmap.
  - rewrite length_fmap. lia.
  - rewrite length_fmap. lia.
  - destruct (response_verbose message answer query
                (rec_doc <$> take (Z.to_nat k) (merge_sort (nearer q) (collection e))))
      as (-> & _).
    case_bool_decide; split; intros ?; done.
  - intros Hne.
    destruct (response_verbose message answer query
                (rec_doc <$> take (Z.to_nat k) (merge_sort (nearer q) (collection e))))
      as (-> & _).
    by rewrite bool_decide_eq_false_2.
Qed.

(** Whatever the sessions of the chunks: when the collection holds at most
    [k] records, a verbose call that returns lists every one of them. *)
Lemma small_collection_all_sources self e message k response s' :
  RAGChatbot.chat message k true (self, e) = (Return response, s') →
  (Z.of_nat (length (collection e)) ≤ k)%Z →
  ∃ sources,
    response !! "sources" = Some (VSources sources)
    ∧ sources ≡ₚ (fun r => RAGChatbot.source_of (rec_doc r)) <$> collection e.
Proof.
  intros Hchat Hsmall.
  apply chat_Return_inv in Hchat
    as (query & e1 & docs & e2 & answer & e3 & Hq & Hdocs & _ & -> & _).
  assert (collection e1 = collection e) as Hcoll.
  { destruct (decide (RAGChatbot.chat_history self = [])) as [Hh|Hh].
    - rewrite contextualize_empty in Hq by done. by injection Hq as _ <-.
    - rewrite contextualize_nonempty in Hq by done. by injection Hq as _ <-. }
  rewrite retriever_steps in Hdocs.
  destruct (embed_query _ _) as [q|x]; [|done].
  case_bool_decide; [done|]. injection Hdocs as <- _.
  eexists. split; [apply response_verbose|].
  rewrite Hcoll, <- list_fmap_compose.
  rewrite take_ge.
  - by rewrite merge_sort_Permutation.
  - rewrite merge_sort_Permutation. lia.
Qed.

End Retrieval.

Lemma verbose_sources_witness :
  ∃ response s',
    (1 ≤ 3)%Z
    ∧ @RAGChatbot.chat (Mock.providers Mock.echo) "X is what?" 3 true
        (RAGChatbot.mk [],
         Mock.env Mock.echo
           [Mock.chunk "Y is a digit" "s1"; Mock.chunk "X is a letter" "s1"])
      = (Return response, s')
    ∧ ∃ sources,
        response !! "sources" = Some (VSources sources)
        ∧ response !! "num_sources" = Some (VInt (Z.of_nat (length sources)))
        ∧ (0 ≤ Z.of_nat (length sources) ≤ 3)%Z.
Proof.
  destruct (@RAGChatbot.chat (Mock.providers Mock.echo) "X is what?" 3 true
              (RAGChatbot.mk [],
               Mock.env Mock.echo
                 [Mock.chunk "Y is a digit" "s1"; Mock.chunk "X is a letter" "s1"]))
    as [[response|x] s'] eqn:E.
  - exists response, s'. split; [lia|]. split; [reflexivity|].
    destruct (verbose_sources _ _ _ 3%Z _ _ ltac:(lia) E)
      as (query & e1 & q & ranked & sources & _ & _ & _ & _ & _ & Hs & Hn & Hb & _).
    exists sources. split; [exact Hs|]. split; [exact Hn | exact Hb].
  - vm_compute in E. discriminate E.
Defined.

(** The nearest chunk comes first, and [k] cuts the list. *)
Example sources_in_rank_order :
  let e := Mock.env Mock.echo
             [Mock.chunk "Y is a digit" "s1"; Mock.chunk "X is a letter" "s1";
              Mock.chunk "X marks the spot" "s1"] in
  (src_content <$> default []
     (sources_of (@RAGChatbot.chat (Mock.providers Mock.echo) "X is what?" 3 true
                    (RAGChatbot.mk [], e)).1))
    = ["X is a letter"; "X marks the spot"; "Y is a digit"]
  ∧ (src_content <$> default []
       (sources_of (@RAGChatbot.chat (Mock.providers Mock.echo) "X is what?" 2 true
                      (RAGChatbot.mk [], e)).1))
    = ["X is a letter"; "X marks the spot"].
Proof. vm_compute. auto. Qed.

(** C5. [chat] retrieves from the one shared collection and passes no
    session filter: there are two runs of the same verbose request of one
    session that differ only in what another session ingested before, and
    whose sources differ, the second one returning a chunk whose metadata
    names the other session. *)
Theorem retrieval_leaks_across_sessions :
  ∃ (P : Providers) (w : World)
    (asker owner temp_path filename message uuid4 : string) (k : Z),
    asker ≠ owner
    ∧ let request := api.mkChatRequest message (Some asker) k true in
      let w' := (call_pdf_processor
                   (PDFProcessor.process_uploaded_pdf temp_path owner filename) w).2 in
      sources_of (api.chat request uuid4 w).1 = Some []
      ∧ ∃ src,
          sources_of (api.chat request uuid4 w').1 = Some [src]
          ∧ src_metadata src !! "session_id" = Some (MStr owner).
Proof.
  exists (Mock.providers Mock.echo),
    (Mock.world_with_upload Mock.echo [Return "X is the secret of s2"]),
    "s1", "s2", "/tmp/upload.pdf", "secret.pdf", "X is what?", "generated", 1%Z.
  split; [done|]. cbv zeta. split; [by vm_compute|].
  eexists. split; [vm_compute; reflexivity|]. vm_compute. reflexivity.
Qed.

(** ** Clearing and deleting sessions *)

Section SessionLifecycle.
Context `{Providers}.

Implicit Types (w : World) (session_id : string).

(** C7. [clear_session_history] and [delete_session] return [True] when
    the session is in the store and [False], without raising and without
    changing anything, when it is not.  On a present session, clear keeps
    the record with an empty history and delete removes the record; doing
    either again after a delete returns [False].  A session just created by
    [get_chatbot] has an empty history, and clearing it returns [True] and
    leaves it so. *)
Theorem clear_and_delete_session session_id w :
  match _conversation_sessions w !! session_id with
  | Some chatbot =>
      clear_session_history session_id w =
        (Return true,
         mkWorld (<[session_id := RAGChatbot.mk []]> (_conversation_sessions w))
                 (pdf_processor w) (env w))
      ∧ delete_session session_id w =
        (Return true,
         mkWorld (delete session_id (_conversation_sessions w))
                 (pdf_processor w) (env w))
      ∧ (let w' := (clear_session_history session_id w).2 in
         _conversation_sessions w' !! session_id = Some (RAGChatbot.mk [])
         ∧ clear_session_history session_id w' = (Return true, w'))
      ∧ (let w' := (delete_session session_id w).2 in
         _conversation_sessions w' !! session_id = None
         ∧ delete_session session_id w' = (Return false, w')
         ∧ clear_session_history session_id w' = (Return false, w'))
  | None =>
      clear_session_history session_id w = (Return false, w)
      ∧ delete_session session_id w = (Return false, w)
      ∧ match get_chatbot session_id w with
        | (Return chatbot, w') =>
            RAGChatbot.chat_history chatbot = []
            ∧ _conversation_sessions w' !! session_id = Some chatbot
            ∧ clear_session_history session_id w' = (Return true, w')
        | (Raise _, _) => True
        end
  end.
Proof.
  assert (∀ w0 c, _conversation_sessions w0 !! session_id = Some c →
    clear_session_history session_id w0 =
      (Return true,
       mkWorld (<[session_id := RAGChatbot.mk []]> (_conversation_sessions w0))
               (pdf_processor w0) (env w0))) as Hclear.
  { intros w0 c Hc. unfold clear_session_history. unfold_monad. simpl.
    rewrite Hc. by rewrite (call_method_present _ _ _ c). }
  assert (∀ w0, _conversation_sessions w0 !! session_id = None →
    clear_session_history session_id w0 = (Return false, w0)
    ∧ delete_session session_id w0 = (Return false, w0)) as Habsent.
  { intros w0 Hn. unfold clear_session_history, delete_session. unfold_monad.
    simpl. by rewrite Hn. }
  destruct (_conversation_sessions w !! session_id) as [chatbot|] eqn:Hs.
  - rewrite (Hclear w chatbot Hs).
    assert (delete_session session_id w =
      (Return true, mkWorld (delete session_id (_conversation_sessions w))
                            (pdf_processor w) (env w))) as ->.
    { unfold delete_session, set_sessions. unfold_monad. simpl. by rewrite Hs. }
    do 2 (split; [done|]). cbv zeta. cbn [snd]. split; [split|split_and!].
    + simpl. by rewrite lookup_insert_eq.
    + erewrite Hclear by (simpl; apply lookup_insert_eq).
      simpl. by rewrite insert_insert_eq.
    + simpl. by rewrite lookup_delete_eq.
    + apply Habsent. simpl. by rewrite lookup_delete_eq.
    + apply Habsent. simpl. by rewrite lookup_delete_eq.
  - destruct (Habsent w Hs) as [-> ->]. split_and!; try done.
    destruct (get_chatbot session_id w) as [[chatbot|x] w'] eqn:Hg; [|done].
    pose proof (get_chatbot_Return _ _ _ _ Hg) as Hin.
    assert (chatbot = RAGChatbot.mk []) as ->.
    { revert Hg. unfold get_chatbot, on_env, set_sessions, RAGChatbot.__init__.
      unfold_monad. simpl. rewrite Hs.
      destruct (persist_dir_exists (env w)); simpl; [by intros [= <- _]|].
      destruct (ingest_documents false (env w)) as [[[]|?] ?]; simpl;
        [by intros [= <- _]|done]. }
    split_and!; try done.
    rewrite (Hclear w' _ Hin). f_equal. destruct w' as [s p e']. simpl in *.
    f_equal. by apply insert_id.
Qed.

End SessionLifecycle.

(** Clear and delete on a session that chatted, and again once it is gone. *)
Example clear_then_delete :
  let w0 := Mock.world Mock.numbered [] in
  let w1 := (api.chat (api.mkChatRequest "Q1" (Some "s1") 3 false) "-" w0).2 in
  let w2 := (clear_session_history "s1" w1).2 in
  let w3 := (delete_session "s1" w2).2 in
  (get_session_info "s1" w1).1 = Return (Some 2%Z)
  ∧ (clear_session_history "s1" w1).1 = Return true
  ∧ (get_session_info "s1" w2).1 = Return (Some 0%Z)
  ∧ (delete_session "s1" w2).1 = Return true
  ∧ (get_session_info "s1" w3).1 = Return None
  ∧ (delete_session "s1" w3).1 = Return false
  ∧ (clear_session_history "s1" w3).1 = Return false
  ∧ (api.clear_history "s1" w3).1 = Return "Session s1 not found".
Proof. vm_compute. repeat split. Qed.

(** ** Ingestion of an uploaded PDF *)

Section Ingest.
Context `{Providers}.

Implicit Types (p : PDFProcessor.t) (e : Env) (documents : list Document).





(** C9. [create_documents] makes one document per chunk of the splitter,
    in order: its metadata holds the filename, the session id, the type tag
    [uploaded_pdf] and the source path, its ["chunk_index"] is its position,
    so that the indices are 0, 1, ..., n-1, and its ["total_chunks"] is the
    number n of chunks. *)
Theorem create_documents_metadata
    (text source session_id filename : string) (chunk_size chunk_overlap : Z) :
  let chunks := split_text chunk_size chunk_overlap (chr 10) text in
  let documents :=
    PDFProcessor.create_documents text source session_id filename
      chunk_size chunk_overlap in
  length documents = length chunks
  ∧ page_content <$> documents = chunks
  ∧ (fun d => metadata d !! "chunk_index") <$> documents
      = (fun i => Some (MInt (Z.of_nat i))) <$> seq 0 (length chunks)
  ∧ Forall (fun d =>
        metadata d !! "filename" = Some (MStr filename)
        ∧ metadata d !! "session_id" = Some (MStr session_id)
        ∧ metadata d !! "total_chunks" = Some (MInt (Z.of_nat (length documents)))
        ∧ metadata d !! "type" = Some (MStr "uploaded_pdf")
        ∧ metadata d !! "source" = Some (MStr source)) documents.
Proof.
  intros chunks documents.
  assert (length documents = length chunks) as Hlen by apply length_imap.
  split; [done|]. rewrite Hlen.
  unfold documents, PDFProcessor.create_documents. fold chunks.
  split_and!.
  - apply list_eq. intros i. rewrite list_lookup_fmap, list_lookup_imap.
    by destruct (chunks !! i).
  - apply list_eq. intros i.
    rewrite !list_lookup_fmap, list_lookup_imap.
    destruct (chunks !! i) as [chunk|] eqn:Hi; simpl.
    + rewrite lookup_seq_lt by by eapply lookup_lt_Some. done.
    + rewrite lookup_seq_ge by by apply lookup_ge_None. done.
  - apply Forall_lookup. intros i d. rewrite list_lookup_imap.
    destruct (chunks !! i) as [chunk|]; [|done]. by intros [= <-].
Qed.

End Ingest.


(** A one-page PDF is ingested as two chunks (the page banner and the
    text), tagged with the session; with the embedding endpoint down the
    same upload is reported as failed and the collection stays empty. *)
Example ingest_one_page :
  let out := PDFProcessor.process_uploaded_pdf "/tmp/upload.pdf" "s1" "a.pdf"
               (PDFProcessor.mk true,
                env (Mock.world_with_upload Mock.echo [Return "X is a letter"])) in
  (match out.1 with Return r => r !! "success" | Raise _ => None end)
    = Some (VBool true)
  ∧ (match out.1 with Return r => r !! "chunks_created" | Raise _ => None end)
    = Some (VInt 2)
  ∧ (page_content ∘ rec_doc <$> collection out.2.2)
    = ["--- Page 1 ---"; "X is a letter"]
  ∧ ((fun r => metadata (rec_doc r) !! "chunk_index") <$> collection out.2.2)
    = [Some (MInt 0); Some (MInt 1)]
  ∧ ((fun r => metadata (rec_doc r) !! "total_chunks") <$> collection out.2.2)
    = [Some (MInt 2); Some (MInt 2)].
Proof. vm_compute. repeat split. Qed.

(** A page without text still yields its banner, so the extracted text is
    not empty and the upload is ingested as one chunk. *)
Example ingest_page_without_text :
  let out := PDFProcessor.process_uploaded_pdf "/tmp/upload.pdf" "s1" "scan.pdf"
               (PDFProcessor.mk true,
                env (Mock.world_with_upload Mock.echo [Return EmptyString])) in
  (match out.1 with Return r => r !! "success" | Raise _ => None end)
    = Some (VBool true)
  ∧ (page_content ∘ rec_doc <$> collection out.2.2) = ["--- Page 1 ---"].
Proof. vm_compute. repeat split. Qed.

Example ingest_embedding_down :
  let out := @PDFProcessor.process_uploaded_pdf (Mock.providers_no_embedding Mock.echo)
               "/tmp/upload.pdf" "s1" "a.pdf"
               (PDFProcessor.mk true,
                set_files {[ "/tmp/upload.pdf" := Pdf [Return "X is a letter"] ]}
                  (Mock.env_no_embedding Mock.echo [])) in
  out.1 = Return (failure_result "Failed to add to vector store")
  ∧ collection out.2.2 = [].
Proof. vm_compute. repeat split. Qed.

(** ** The history over a sequence of operations *)

Section History.
Context `{Providers}.

Lemma alternating_snoc history message answer :
  alternating history = true →
  alternating (history ++ [HumanMessage message; AIMessage answer]) = true.
Proof.
  revert history. fix IH 1.
  intros [|[] [|[] rest]]; simpl; try done. apply IH.
Qed.

Lemma alternating_even history :
  alternating history = true → Nat.Even (length history).
Proof.
  revert history. fix IH 1.
  intros [|[] [|[] rest]]; simpl; try done.
  - intros _. by exists 0.
  - intros Hrest. destruct (IH rest Hrest) as [n Hn]. exists (S n). lia.
Qed.

Lemma human_turns_snoc history message answer :
  human_turns (history ++ [HumanMessage message; AIMessage answer])
    = human_turns history ++ [message].
Proof. unfold human_turns. by rewrite omap_app. Qed.

(** One operation keeps the shape of the history and the account of the
    human turns. *)
Lemma run_op_invariant op s kept :
  alternating (RAGChatbot.chat_history s.1) = true →
  human_turns (RAGChatbot.chat_history s.1) = kept →
  alternating (RAGChatbot.chat_history (run_op op s).1) = true
  ∧ human_turns (RAGChatbot.chat_history (run_op op s).1)
      = kept_messages [op] s kept.
Proof.
  intros Halt Hkept. destruct s as [self e]. simpl in Halt, Hkept.
  destruct op as [message k verbose|].
  - simpl. destruct (RAGChatbot.chat message k verbose (self, e))
      as [[response|x] s'] eqn:Hchat; simpl.
    + apply chat_Return_inv in Hchat
        as (? & ? & ? & ? & answer & ? & _ & _ & _ & _ & ->). simpl.
      split; [by apply alternating_snoc|].
      by rewrite human_turns_snoc, Hkept.
    + apply chat_Raise_inv in Hchat. by rewrite Hchat.
  - done.
Qed.

Lemma run_invariant ops s kept :
  alternating (RAGChatbot.chat_history s.1) = true →
  human_turns (RAGChatbot.chat_history s.1) = kept →
  alternating (RAGChatbot.chat_history (run ops s).1) = true
  ∧ human_turns (RAGChatbot.chat_history (run ops s).1)
      = kept_messages ops s kept.
Proof.
  revert s kept. induction ops as [|op ops IH]; intros s kept Halt Hkept; [done|].
  destruct (run_op_invariant op s kept Halt Hkept) as [Halt' Hkept'].
  apply (IH (run_op op s) _ Halt' Hkept').
Qed.

(** C10 (amended). After any sequence of [chat] and [clear_history] calls on
    a chatbot that started with an empty history, the history has even
    length, alternates human and AI turns from a human turn on (so it holds
    no system message), and its human turns are the original messages of
    the [chat] calls that returned since the last [clear_history], in call
    order. *)
Theorem history_invariant (ops : list Op) (e : Env) :
  let history := RAGChatbot.chat_history (run ops (RAGChatbot.mk [], e)).1 in
  Nat.Even (length history)
  ∧ alternating history = true
  ∧ human_turns history = kept_messages ops (RAGChatbot.mk [], e) [].
Proof.
  intros history.
  destruct (run_invariant ops (RAGChatbot.mk [], e) [] eq_refl eq_refl)
    as [Halt Hkept].
  split; [by apply alternating_even|]. by split.
Qed.

End History.

(** C10 as stated fails: after [chat Q1], [clear_history], [chat Q2] the
    only human turn is Q2, while the chat messages in call order are Q1,
    Q2. *)
Lemma history_is_not_all_chat_messages :
  let ops := [Chat "Q1" 3 false; ClearHistory; Chat "Q2" 3 false] in
  let history :=
    RAGChatbot.chat_history
      (@run (Mock.providers Mock.numbered) ops
         (RAGChatbot.mk [], Mock.env Mock.numbered [])).1 in
  history = [HumanMessage "Q2"; AIMessage "A3"]
  ∧ chat_messages ops = ["Q1"; "Q2"]
  ∧ ¬ (Nat.Even (length history)
       ∧ alternating history = true
       ∧ human_turns history = chat_messages ops).
Proof.
  cbv zeta. split; [by vm_compute|]. split; [by vm_compute|].
  intros (_ & _ & Hturns). vm_compute in Hturns. discriminate Hturns.
Qed.

(** A [chat] call that raises leaves no human turn either. *)
Example failed_chat_leaves_no_turn :
  let ops := [Chat "Q1" 3 false] in
  let s0 := (RAGChatbot.mk [], Mock.env Mock.unavailable []) in
  RAGChatbot.chat_history (@run (Mock.providers Mock.unavailable) ops s0).1 = []
  ∧ @kept_messages (Mock.providers Mock.unavailable) ops s0 [] = []
  ∧ chat_messages ops = ["Q1"].
Proof. vm_compute. repeat split. Qed.

(** * Further properties of the code *)

(** ** Ingestion of the [docs/] directory and construction of a chatbot *)

Section Construction.
Context `{Providers}.

Implicit Types (e : Env) (w : World) (session_id : string) (x : exception).

Lemma get_embedding_function_steps e :
  get_embedding_function e =
    (match hf_token e with
     | Some (String _ _) => Return tt
     | _ => Raise (ValueError "HF_TOKEN not found in environment variables")
     end, e).
Proof.
  unfold get_embedding_function. unfold_monad. simpl.
  by destruct (hf_token e) as [[|? ?]|].
Qed.

Lemma add_documents_steps (documents : list Document) e :
  add_documents documents e =
    match embed_documents (length (calls e)) (page_content <$> documents) with
    | Return vs =>
        if bool_decide (length vs = length documents)
        then (Return tt,
              set_collection
                (collection e ++ zip_with mkIndexRecord vs documents)
                (set_calls (calls e ++ [EmbedDocuments (page_content <$> documents)]) e))
        else (Raise (ValueError "Unequal lengths for fields: embeddings and documents"),
              set_calls (calls e ++ [EmbedDocuments (page_content <$> documents)]) e)
    | Raise x =>
        (Raise x, set_calls (calls e ++ [EmbedDocuments (page_content <$> documents)]) e)
    end.
Proof.
  unfold add_documents. unfold_monad. simpl.
  destruct (embed_documents _ _); [|done]. by case_bool_decide.
Qed.

(** X1. With a store already on disk, [ingest_documents] without
    [force_reingest] only checks the token: it returns with the environment
    untouched when [HF_TOKEN] is set and not empty (no document is loaded,
    no provider is called, whatever [docs/] holds), and raises
    [ValueError] otherwise. *)
Theorem ingest_documents_existing_store e :
  persist_dir_exists e = true →
  ingest_documents false e =
    (match hf_token e with
     | Some (String _ _) => Return tt
     | _ => Raise (ValueError "HF_TOKEN not found in environment variables")
     end, e).
Proof.
  intros Hdir. unfold ingest_documents. unfold mbind, M_bind, get_state.
  rewrite Hdir. simpl. apply get_embedding_function_steps.
Qed.


Lemma from_documents_Return (chunks : list Document) (vs : list Vec) e :
  embed_documents (length (calls e)) (page_content <$> chunks) = Return vs →
  length vs = length chunks →
  from_documents chunks e =
    (Return tt,
     set_collection (collection e ++ zip_with mkIndexRecord vs chunks)
       (set_calls (calls e ++ [EmbedDocuments (page_content <$> chunks)])
          (set_persist_dir_exists true e))).
Proof.
  intros Hembed Hlen. unfold from_documents. unfold_monad.
  rewrite add_documents_steps. cbn [calls set_persist_dir_exists].
  by rewrite Hembed, bool_decide_eq_true_2.
Qed.

Lemma rec_doc_zip (vs : list Vec) (chunks : list Document) :
  length vs = length chunks →
  rec_doc <$> zip_with mkIndexRecord vs chunks = chunks.
Proof.
  revert vs. induction chunks as [|ch chunks IH]; intros [|v vs] Hlen;
    simpl in *; try done.
  f_equal. apply IH. lia.
Qed.


(** X3. A first ingestion that goes through (no store yet, a token, some
    [.txt] documents, an embedding call that returns one vector per chunk)
    makes exactly one provider call, creates the store and fills the
    collection with one record per chunk of [split_documents], in order. *)
Theorem ingest_documents_first_run e (documents : list Document)
    (vs : list Vec) c token :
  persist_dir_exists e = false →
  hf_token e = Some (String c token) →
  txt_docs e = Some documents →
  documents ≠ [] →
  let chunks :=
    split_documents documents RAGConfig.CHUNK_SIZE RAGConfig.CHUNK_OVERLAP in
  embed_documents (length (calls e)) (page_content <$> chunks) = Return vs →
  length vs = length chunks →
  ∃ e', ingest_documents false e = (Return tt, e')
    ∧ persist_dir_exists e' = true
    ∧ collection e' = collection e ++ zip_with mkIndexRecord vs chunks
    ∧ rec_doc <$> zip_with mkIndexRecord vs chunks = chunks
    ∧ calls e' = calls e ++ [EmbedDocuments (page_content <$> chunks)].
Proof.
  intros Hdir Htoken Hdocs Hne chunks Hembed Hlen.
  unfold ingest_documents. unfold mbind at 1. unfold M_bind at 1, get_state.
  rewrite Hdir. cbn [andb].
  unfold load_documents, create_vector_store. unfold mbind, M_bind, get_state.
  rewrite Hdocs. destruct documents as [|d docs]; [done|].
  unfold mret, M_ret. rewrite get_embedding_function_steps, Htoken.
  rewrite (from_documents_Return _ vs) by done.
  eexists. split; [done|]. split_and!; try done. by apply rec_doc_zip.
Qed.

End Construction.

(** ** The session store *)

Section SessionStore.
Context `{Providers}.

Implicit Types (e : Env) (w : World) (session_id : string) (x : exception).

Lemma init_steps e :
  RAGChatbot.__init__ true e =
    if persist_dir_exists e then (Return (RAGChatbot.mk []), e)
    else match ingest_documents false e with
         | (Return _, e') => (Return (RAGChatbot.mk []), e')
         | (Raise x, e') => (Raise x, e')
         end.
Proof.
  unfold RAGChatbot.__init__. unfold_monad. simpl.
  destruct (persist_dir_exists e); [done|].
  by destruct (ingest_documents false e) as [[[]|x] e'].
Qed.

Lemma get_chatbot_steps session_id w :
  get_chatbot session_id w =
    match _conversation_sessions w !! session_id with
    | Some chatbot => (Return chatbot, w)
    | None =>
        match RAGChatbot.__init__ true (env w) with
        | (Return chatbot, e') =>
            (Return chatbot,
             mkWorld (<[session_id := chatbot]> (_conversation_sessions w))
                     (pdf_processor w) e')
        | (Raise x, e') =>
            (Raise x, mkWorld (_conversation_sessions w) (pdf_processor w) e')
        end
    end.
Proof.
  unfold get_chatbot, on_env, set_sessions. unfold_monad. simpl.
  destruct (_conversation_sessions w !! session_id); [done|].
  by destruct (RAGChatbot.__init__ true (env w)) as [[c|x] e'].
Qed.

(** X4. [get_chatbot] gets or creates: when it returns, the store is the
    old one with the session bound to the returned chatbot; a session that
    was there is returned as it is, history included, and nothing changes;
    a new one starts with an empty history; and asking again returns the
    same chatbot without building anything. *)
Theorem get_chatbot_gets_or_creates session_id w chatbot w1 :
  get_chatbot session_id w = (Return chatbot, w1) →
  _conversation_sessions w1 = <[session_id := chatbot]> (_conversation_sessions w)
  ∧ match _conversation_sessions w !! session_id with
    | Some present => chatbot = present ∧ w1 = w
    | None => chatbot = RAGChatbot.mk []
    end
  ∧ get_chatbot session_id w1 = (Return chatbot, w1).
Proof.
  intros Hg. pose proof (get_chatbot_Return _ _ _ _ Hg) as Hin.
  split_and!.
  - rewrite get_chatbot_steps in Hg.
    destruct (_conversation_sessions w !! session_id) as [c|] eqn:Hs.
    + injection Hg as <- <-. by rewrite insert_id.
    + destruct (RAGChatbot.__init__ true (env w)) as [[c|x] e']; [|done].
      by injection Hg as <- <-.
  - rewrite get_chatbot_steps in Hg.
    destruct (_conversation_sessions w !! session_id) as [c|] eqn:Hs.
    + by injection Hg as <- <-.
    + rewrite init_steps in Hg.
      destruct (persist_dir_exists (env w)); [by injection Hg as <- _|].
      destruct (ingest_documents false (env w)) as [[[]|x] e']; [|done].
      by injection Hg as <- _.
  - by rewrite get_chatbot_steps, Hin.
Qed.


End SessionStore.

(** ** What a chat turn costs and touches *)

Section ChatCost.
Context `{Providers}.

Implicit Types (self : RAGChatbot.t) (e : Env) (w : World)
  (message session_id : string) (k : Z) (verbose : bool) (x : exception).

(** X6. [chat] changes nothing in the environment but the call log, to
    which it adds at least one and at most three provider calls, at most
    two when the history is empty; a call that returns made exactly two
    (the query embedding and the generation) on an empty history and three
    (the rewrite first) otherwise.  No call is repeated. *)
Theorem chat_provider_calls self e message k verbose :
  let out := RAGChatbot.chat message k verbose (self, e) in
  ∃ new_calls,
    out.2.2 = set_calls (calls e ++ new_calls) e
    ∧ 1 ≤ length new_calls ≤ 3
    ∧ (RAGChatbot.chat_history self = [] → length new_calls ≤ 2)
    ∧ ((∃ response, out.1 = Return response) →
       length new_calls =
         if decide (RAGChatbot.chat_history self = []) then 2 else 3)
    ∧ NoDup new_calls.
Proof.
  intros out. unfold out. clear out. rewrite chat_steps.
  assert (∀ e0 query,
    ∃ l, (l = [EmbedQuery query]
          ∨ ∃ docs, l = [EmbedQuery query; LLMInvoke (answer_messages self message docs)])
      ∧ match retriever_invoke k query e0 with
        | (Raise x, e2) => e2 = set_calls (calls e0 ++ l) e0 ∧ length l = 1
        | (Return docs, e2) =>
            match invoke (answer_messages self message docs) e2 with
            | (r, e3) =>
                e3 = set_calls (calls e0 ++ l) e0 ∧ length l = 2
            end
        end) as Hrest.
  { intros e0 query. rewrite retriever_steps.
    destruct (embed_query _ _) as [q|x]; [|by exists [EmbedQuery query]; eauto].
    case_bool_decide; [by exists [EmbedQuery query]; eauto|].
    rewrite invoke_steps. eexists [_; _]. split; [right; eauto|].
    simpl. by rewrite <- app_assoc. }
  assert (∀ query (l : list Call),
    (l = [EmbedQuery query]
     ∨ ∃ docs, l = [EmbedQuery query; LLMInvoke (answer_messages self message docs)])
    → NoDup (LLMInvoke (rewrite_messages self message) :: l) ∧ NoDup l) as Hnodup.
  { assert (∀ docs, LLMInvoke (rewrite_messages self message)
              ≠ LLMInvoke (answer_messages self message docs)) as Hne by done.
    intros query l [->|[docs ->]];
      rewrite ?NoDup_cons, ?elem_of_cons, ?elem_of_nil;
      (split_and!; try apply NoDup_nil_2; try done; intros Hin;
       repeat destruct Hin as [Hin|Hin]; try done; by eapply Hne). }
  destruct (decide (RAGChatbot.chat_history self = [])) as [Hh|Hh].
  - rewrite contextualize_empty by done.
    destruct (Hrest e message) as (l & Hl & Hr).
    destruct (Hnodup message l Hl) as [_ Hnd].
    destruct (retriever_invoke k message e) as [[docs|x] e2].
    + destruct (invoke _ e2) as [[answer|x] e3]; destruct Hr as [-> Hlen];
        exists l; simpl; split_and!; try done; try lia.
    + destruct Hr as [-> Hlen]. exists l. simpl.
      split_and!; try done; try lia. by intros [? ?].
  - rewrite contextualize_nonempty by done.
    set (e1 := set_calls _ e).
    destruct (llm_invoke _ _) as [result|x].
    2:{ exists [LLMInvoke (rewrite_messages self message)]. simpl.
        split_and!; try done; try lia. by intros [? ?]. apply NoDup_singleton. }
    destruct (Hrest e1 (strip result)) as (l & Hl & Hr).
    destruct (Hnodup (strip result) l Hl) as [Hnd _].
    destruct (retriever_invoke k (strip result) e1) as [[docs|x] e2].
    + destruct (invoke _ e2) as [[answer|x] e3]; destruct Hr as [-> Hlen];
        exists (LLMInvoke (rewrite_messages self message) :: l); simpl;
        (split_and!; [by rewrite <- app_assoc|lia|lia|done|lia|done]).
    + destruct Hr as [-> Hlen].
      exists (LLMInvoke (rewrite_messages self message) :: l). simpl.
      split_and!; [by rewrite <- app_assoc|lia|lia|done|by intros [? ?]|done].
Qed.

End ChatCost.

(** ** Sessions under the chat endpoint *)

Section ChatEndpoint.
Context `{Providers}.

Implicit Types (w : World) (session_id other : string) (x : exception)
  (request : api.ChatRequest).

Lemma api_chat_steps request uuid4 w :
  api.chat request uuid4 w =
    let sid := session_of request uuid4 in
    match get_chatbot sid w with
    | (Raise x, w1) => (Raise (HTTPException 500 (str x)), w1)
    | (Return chatbot, w1) =>
        let out := RAGChatbot.chat (api.message request) (api.k request)
                     (api.verbose request) (chatbot, env w1) in
        (match out.1 with
         | Return response => Return (<["session_id" := VStr sid]> response)
         | Raise x => Raise (HTTPException 500 (str x))
         end,
         mkWorld (<[sid := out.2.1]> (_conversation_sessions w1))
                 (pdf_processor w1) out.2.2)
    end.
Proof.
  cbv zeta. unfold api.chat. fold (session_of request uuid4).
  unfold try_except, mbind, M_bind.
  destruct (get_chatbot _ w) as [[chatbot|x] w1] eqn:Hg; [|done].
  rewrite (call_method_present _ _ _ chatbot) by by eapply get_chatbot_Return.
  by destruct (RAGChatbot.chat _ _ _ _) as [[response|x] [c' e']].
Qed.

(** X7. Histories are kept apart: [POST /chat] on one session, and
    clearing or deleting that session, leave the record of every other
    session, so its history, as it was. *)
Theorem other_sessions_untouched request uuid4 w other :
  other ≠ session_of request uuid4 →
  let sid := session_of request uuid4 in
  _conversation_sessions (api.chat request uuid4 w).2 !! other
    = _conversation_sessions w !! other
  ∧ _conversation_sessions (clear_session_history sid w).2 !! other
    = _conversation_sessions w !! other
  ∧ _conversation_sessions (delete_session sid w).2 !! other
    = _conversation_sessions w !! other.
Proof.
  intros Hne sid. fold sid in Hne. split_and!.
  - rewrite api_chat_steps. fold sid. cbv zeta.
    rewrite get_chatbot_steps.
    destruct (_conversation_sessions w !! sid) as [c|]; simpl.
    + by rewrite lookup_insert_ne.
    + destruct (RAGChatbot.__init__ true (env w)) as [[c|x] e']; simpl; [|done].
      by rewrite !lookup_insert_ne.
  - unfold clear_session_history. unfold_monad. simpl.
    destruct (_conversation_sessions w !! sid) as [c|] eqn:Hs; [|done].
    rewrite (call_method_present _ _ _ c) by done. simpl.
    by rewrite lookup_insert_ne.
  - unfold delete_session, set_sessions. unfold_monad. simpl.
    destruct (_conversation_sessions w !! sid) as [c|] eqn:Hs; [|done].
    simpl. by rewrite lookup_delete_ne.
Qed.


(** X9. A [POST /chat] that returns adds exactly two messages to the
    history of its session, as [get_session_info] counts them: two for a
    session it created, the former length plus two otherwise. *)
Theorem chat_request_grows_history request uuid4 w response w' :
  api.chat request uuid4 w = (Return response, w') →
  let sid := session_of request uuid4 in
  (get_session_info sid w').1 =
    Return (Some (from_option (fun c => Z.of_nat (length (RAGChatbot.chat_history c)))
                    0%Z (_conversation_sessions w !! sid) + 2)%Z).
Proof.
  intros Hchat sid. rewrite api_chat_steps in Hchat. fold sid in Hchat.
  cbv zeta in Hchat.
  destruct (get_chatbot sid w) as [[chatbot|x] w1] eqn:Hg; [|done].
  destruct (RAGChatbot.chat _ _ _ (chatbot, env w1)) as [[r|x] s'] eqn:Hc;
    [|done].
  apply chat_Return_inv in Hc as (? & ? & ? & ? & answer & ? & _ & _ & _ & _ & ->).
  simpl in Hchat. injection Hchat as _ <-.
  unfold get_session_info. unfold_monad. simpl. rewrite lookup_insert_eq.
  erewrite call_method_present by (simpl; apply lookup_insert_eq). simpl.
  do 2 f_equal. rewrite length_app. simpl.
  rewrite get_chatbot_steps in Hg.
  destruct (_conversation_sessions w !! sid) as [c|] eqn:Hs.
  - injection Hg as <- _. simpl. lia.
  - rewrite init_steps in Hg.
    destruct (persist_dir_exists (env w)); [injection Hg as <- _; simpl; lia|].
    destruct (ingest_documents false (env w)) as [[[]|?] ?]; [|done].
    injection Hg as <- _. simpl. lia.
Qed.

End ChatEndpoint.

(** ** Text extraction and the saved upload *)

Section Extraction.
Context `{Providers}.

Implicit Types (p : PDFProcessor.t) (e : Env) (text : string).

Lemma string_app_cons c (a b : string) :
  String c a +:+ b = String c (a +:+ b).
Proof. reflexivity. Qed.

Lemma string_app_nil_l (a : string) : EmptyString +:+ a = a.
Proof. reflexivity. Qed.

Lemma string_app_assoc (a b c : string) : (a +:+ b) +:+ c = a +:+ (b +:+ c).
Proof.
  induction a as [|x a IH]; [done|]. by rewrite !string_app_cons, IH.
Qed.

Lemma string_app_nil_r (a : string) : a +:+ EmptyString = a.
Proof. induction a as [|x a IH]; [done|]. by rewrite string_app_cons, IH. Qed.

Lemma string_app_length (a b : string) :
  String.length (a +:+ b) = String.length a + String.length b.
Proof.
  induction a as [|x a IH]; [done|]. rewrite string_app_cons. simpl. by rewrite IH.
Qed.

(** The loop over the pages: it raises when a page does, and otherwise
    appends the blocks of the pages to the text it started from. *)
Lemma extract_pages_steps (pages : list (outcome string)) (page_num : nat) text :
  match PDFProcessor.extract_pages pages page_num text with
  | Return t =>
      ∃ page_texts, pages = Return <$> page_texts
        ∧ t = text +:+ page_blocks page_num page_texts
  | Raise x => Raise x ∈ pages
  end.
Proof.
  revert page_num text. induction pages as [|[page_text|x] pages IH];
    intros page_num text; simpl.
  - exists []. by rewrite string_app_nil_r.
  - specialize (IH (S page_num)
      (text +:+ chr 10 +:+ "--- Page " +:+ pretty (page_num + 1) +:+ " ---"
            +:+ chr 10 +:+ page_text +:+ chr 10)).
    destruct (PDFProcessor.extract_pages pages _ _) as [t|x].
    + destruct IH as (page_texts & -> & ->). exists (page_text :: page_texts).
      split; [done|]. simpl. unfold page_block.
      by rewrite !string_app_assoc.
    + by apply list_elem_of_further.
  - apply list_elem_of_here.
Qed.

Lemma page_blocks_empty (page_num : nat) (page_texts : list string) :
  page_blocks page_num page_texts = EmptyString ↔ page_texts = [].
Proof. by destruct page_texts. Qed.

(** X10. [extract_text_from_pdf] never raises and changes nothing.  It
    returns the empty string exactly when the file is missing or
    unreadable, has no page, or has a page whose extraction raises. *)
Theorem extract_text_empty_iff (pdf_path : string) p e :
  ∃ text,
    PDFProcessor.extract_text_from_pdf pdf_path (p, e) = (Return text, (p, e))
    ∧ (text = EmptyString ↔
       match files e !! pdf_path with
       | Some (Pdf pages) => pages = [] ∨ ∃ x, Raise x ∈ pages
       | _ => True
       end).
Proof.
  unfold PDFProcessor.extract_text_from_pdf. unfold_monad. simpl.
  destruct (files e !! pdf_path) as [[x|pages]|]; [by eexists..| |by eexists].
  pose proof (extract_pages_steps pages 0 EmptyString) as Hsteps.
  destruct (PDFProcessor.extract_pages pages 0 EmptyString) as [t|x].
  - exists t. split; [done|]. destruct Hsteps as (page_texts & -> & ->).
    rewrite string_app_nil_l, page_blocks_empty. split.
    + intros ->. by left.
    + intros [Hnil|[x Hx]]; [by destruct page_texts|].
      apply list_elem_of_fmap in Hx as (? & [=] & _).
  - exists EmptyString. split; [done|]. split; [|done]. eauto.
Qed.

(** X11. When every page can be extracted, the text is the sequence of
    the pages' blocks: for page i (counted from 1) a line feed, the banner
    [--- Page i ---], a line feed, the page's text and a line feed. *)
Theorem extract_text_page_blocks (pdf_path : string) (page_texts : list string) p e :
  files e !! pdf_path = Some (Pdf (Return <$> page_texts)) →
  PDFProcessor.extract_text_from_pdf pdf_path (p, e)
    = (Return (page_blocks 0 page_texts), (p, e)).
Proof.
  intros Hfile. unfold PDFProcessor.extract_text_from_pdf. unfold_monad. simpl.
  rewrite Hfile.
  pose proof (extract_pages_steps (Return <$> page_texts) 0 EmptyString) as Hsteps.
  destruct (PDFProcessor.extract_pages _ 0 EmptyString) as [t|x].
  - destruct Hsteps as (page_texts' & Heq & ->).
    assert (page_texts' = page_texts) as ->.
    { clear -Heq. revert page_texts' Heq.
      induction page_texts as [|t0 ts IH]; intros [|t1 ts']; simpl; try done.
      intros [= -> Hrest]. f_equal. by apply IH. }
    by rewrite string_app_nil_l.
  - apply list_elem_of_fmap in Hsteps as (? & [=] & _).
Qed.

End Extraction.

(** ** The upload pipeline as a whole *)

Section Upload.
Context `{Providers}.

Implicit Types (p : PDFProcessor.t) (e : Env) (text : string).






End Upload.

(** *** The further properties on concrete providers *)

Lemma ingest_documents_existing_store_witness :
  persist_dir_exists (Mock.env Mock.echo []) = true
  ∧ @ingest_documents (Mock.providers Mock.echo) false (Mock.env Mock.echo [])
    = (Return tt, Mock.env Mock.echo []).
Proof.
  split; [reflexivity|].
  exact (@ingest_documents_existing_store (Mock.providers Mock.echo)
           (Mock.env Mock.echo []) eq_refl).
Defined.


Lemma ingest_documents_first_run_witness :
  let P := Mock.providers Mock.echo in
  let documents := [mkDocument "alpha" {[ "source" := MStr "docs/a.txt" ]}] in
  let e := @mkEnv P (Some "hf_token") false [] (Some documents) ∅ [] in
  ∃ e', ingest_documents false e = (Return tt, e')
    ∧ persist_dir_exists e' = true
    ∧ (page_content ∘ rec_doc <$> collection e') = ["alpha"].
Proof.
  intros P documents e.
  destruct (@ingest_documents_first_run P e documents ["alpha"] (Ascii.ascii_of_nat 104) "f_token"
              eq_refl eq_refl eq_refl ltac:(discriminate) eq_refl eq_refl)
    as (e' & Hrun & Hdir & Hcoll & _).
  exists e'. split; [exact Hrun|]. split; [exact Hdir|].
  rewrite Hcoll. reflexivity.
Defined.

Lemma get_chatbot_gets_or_creates_witness :
  let w := Mock.world Mock.echo [] in
  ∃ chatbot w1,
    get_chatbot "s1" w = (Return chatbot, w1)
    ∧ get_chatbot "s1" w1 = (Return chatbot, w1).
Proof.
  intros w.
  destruct (get_chatbot "s1" w) as [[chatbot|x] w1] eqn:Hg.
  - exists chatbot, w1. split; [reflexivity|].
    exact (proj2 (proj2 (get_chatbot_gets_or_creates _ _ _ _ Hg))).
  - vm_compute in Hg. discriminate Hg.
Defined.


Lemma other_sessions_untouched_witness :
  let w := (api.chat (api.mkChatRequest "Q0" (Some "s2") 3 false) "-"
              (Mock.world Mock.numbered [])).2 in
  let request := api.mkChatRequest "Q1" (Some "s1") 3 false in
  "s2" ≠ session_of request "-"
  ∧ _conversation_sessions (api.chat request "-" w).2 !! "s2"
    = _conversation_sessions w !! "s2".
Proof.
  intros w request.
  assert ("s2" ≠ session_of request "-") as Hne by discriminate.
  split; [exact Hne|].
  exact (proj1 (other_sessions_untouched request "-" w "s2" Hne)).
Defined.


Lemma chat_request_grows_history_witness :
  let w := Mock.world Mock.numbered [] in
  let request := api.mkChatRequest "Q1" (Some "s1") 3 false in
  ∃ response w',
    api.chat request "-" w = (Return response, w')
    ∧ (get_session_info "s1" w').1 = Return (Some 2%Z).
Proof.
  intros w request.
  destruct (api.chat request "-" w) as [[response|x] w'] eqn:Hchat.
  - exists response, w'. split; [reflexivity|].
    exact (chat_request_grows_history _ _ _ _ _ Hchat).
  - vm_compute in Hchat. discriminate Hchat.
Defined.

Lemma extract_text_page_blocks_witness :
  let P := Mock.providers Mock.echo in
  let e := env (Mock.world_with_upload Mock.echo [Return "one"; Return "two"]) in
  files e !! "/tmp/upload.pdf" = Some (Pdf (Return <$> ["one"; "two"]))
  ∧ PDFProcessor.extract_text_from_pdf "/tmp/upload.pdf" (PDFProcessor.mk true, e)
    = (Return (page_blocks 0 ["one"; "two"]), (PDFProcessor.mk true, e)).
Proof.
  intros P e.
  assert (files e !! "/tmp/upload.pdf" = Some (Pdf (Return <$> ["one"; "two"])))
    as Hfile by reflexivity.
  split; [exact Hfile|].
  exact (extract_text_page_blocks "/tmp/upload.pdf" ["one"; "two"]
           (PDFProcessor.mk true) e Hfile).
Defined.

(** Two pages, extracted. *)
Example extract_two_pages :
  page_blocks 0 ["one"; "two"] =
    chr 10 +:+ "--- Page 1 ---" +:+ chr 10 +:+ "one" +:+ chr 10
    +:+ chr 10 +:+ "--- Page 2 ---" +:+ chr 10 +:+ "two" +:+ chr 10.
Proof. vm_compute. reflexivity. Qed.

(** ** The files and embeddings of a session *)

Section SessionFilesLemmas.
Context `{Providers}.

Implicit Types (p : PDFProcessor.t) (e : Env) (session_id dir path : string)
  (fs : gmap string PdfFile).

Lemma where_matches_tagged session_id (r : IndexRecord) :
  where_matches {[ "session_id" := MStr session_id ]} (rec_doc r) = true
  ↔ tagged session_id r.
Proof.
  unfold where_matches, tagged. rewrite bool_decide_eq_true.
  by rewrite map_Forall_singleton.
Qed.

Lemma elem_of_glob_pdf dir fs path name :
  (path, name) ∈ SessionFiles.glob_pdf dir fs
  ↔ is_Some (fs !! path) ∧ pdf_name dir path = Some name.
Proof.
  unfold SessionFiles.glob_pdf. rewrite list_elem_of_omap. split.
  - intros (path' & Hin & Hname).
    destruct (pdf_name dir path') as [name'|] eqn:Hp; [|done].
    injection Hname as <- <-. split; [|done].
    apply list_elem_of_fmap in Hin as ([path'' f] & -> & Hin).
    apply elem_of_map_to_list in Hin. by exists f.
  - intros [[f Hf] Hname]. exists path. rewrite Hname. split; [|done].
    apply list_elem_of_fmap. exists (path, f). split; [done|].
    by apply elem_of_map_to_list.
Qed.

Lemma lookup_foldl_delete fs (paths : list string) path :
  foldl (fun fs' path' => delete path' fs') fs paths !! path
    = if decide (path ∈ paths) then None else fs !! path.
Proof.
  revert fs. induction paths as [|q paths IH]; intros fs.
  - destruct (decide (path ∈ [])) as [Hin|_]; [by apply elem_of_nil in Hin|done].
  - cbn [foldl]. rewrite IH. destruct (decide (path ∈ paths)) as [Hin|Hnin];
      destruct (decide (path ∈ q :: paths)) as [Hin'|Hnin']; try done.
    + exfalso. apply Hnin'. by apply list_elem_of_further.
    + apply elem_of_cons in Hin' as [->|?]; [|done]. apply lookup_delete_eq.
    + apply lookup_delete_ne. intros ->. apply Hnin'. apply list_elem_of_here.
Qed.

Lemma unlink_all_no_faults (paths : list string) (n : Z) e :
  @SessionFiles.unlink_all _ no_faults paths n e =
    (Return (n + Z.of_nat (length paths))%Z,
     set_files (foldl (fun fs' path' => delete path' fs') (files e) paths) e).
Proof.
  revert n e. induction paths as [|q paths IH]; intros n e; simpl.
  - unfold_monad. destruct e. simpl. do 2 f_equal. lia.
  - unfold mbind, M_bind, SessionFiles.unlink. simpl. unfold_monad.
    rewrite IH. simpl. do 2 f_equal. lia.
Qed.

Lemma omap_cons {A B} (f : A → option B) (x : A) (l : list A) :
  omap f (x :: l) = match f x with Some y => y :: omap f l | None => omap f l end.
Proof. reflexivity. Qed.

(** The identifiers of the records of a session, and what is left of a
    collection once they are deleted. *)
Lemma ids_length session_id (records : list IndexRecord) (k : nat) :
  length (omap (fun '(i, r) =>
            if where_matches {[ "session_id" := MStr session_id ]} (rec_doc r)
            then Some i else None)
          (imap (fun i r => (k + i, r)) records))
    = length (filter (tagged session_id) records).
Proof.
  revert k. induction records as [|r records IH]; intros k; [done|].
  rewrite imap_cons, omap_cons, filter_cons.
  rewrite (imap_ext _ (fun i r => (S k + i, r))) by (intros; simpl; f_equal; lia).
  destruct (where_matches _ (rec_doc r)) eqn:Hm.
  - apply where_matches_tagged in Hm. rewrite decide_True by done.
    cbn [length]. by rewrite (IH (S k)).
  - rewrite decide_False; [by rewrite (IH (S k))|].
    intros Ht. apply where_matches_tagged in Ht. congruence.
Qed.

Lemma elem_of_ids session_id (records : list IndexRecord) (i : nat) :
  i ∈ omap (fun '(i, r) =>
        if where_matches {[ "session_id" := MStr session_id ]} (rec_doc r)
        then Some i else None)
      (imap (fun i r => (i, r)) records)
  ↔ ∃ r, records !! i = Some r ∧ tagged session_id r.
Proof.
  rewrite list_elem_of_omap. split.
  - intros ([j r] & Hin & Hm).
    apply elem_of_lookup_imap in Hin as (j' & r' & Heq & Hl).
    injection Heq as -> ->.
    destruct (where_matches _ (rec_doc r')) eqn:Hw; [|done].
    injection Hm as <-. exists r'. split; [done|]. by apply where_matches_tagged.
  - intros (r & Hl & Ht). exists (i, r). split.
    + by apply (elem_of_lookup_imap_2 (fun i r => (i, r))).
    + apply where_matches_tagged in Ht. by rewrite Ht.
Qed.

Lemma delete_ids_filter session_id (ids : list nat)
    (records : list IndexRecord) (k : nat) :
  (∀ i r, records !! i = Some r → (k + i ∈ ids ↔ tagged session_id r)) →
  omap (fun '(i, r) => if bool_decide (i ∈ ids) then None else Some r)
       (imap (fun i r => (k + i, r)) records)
    = filter (fun r => ¬ tagged session_id r) records.
Proof.
  revert k. induction records as [|r records IH]; intros k Hids; [done|].
  rewrite imap_cons, omap_cons, filter_cons.
  rewrite (imap_ext _ (fun i r => (S k + i, r))) by (intros; simpl; f_equal; lia).
  rewrite IH.
  2:{ intros i r' Hl. rewrite <- (Hids (S i) r' Hl).
      by replace (S k + i) with (k + S i) by lia. }
  specialize (Hids 0 r eq_refl). rewrite Nat.add_0_r in Hids |- *.
  case_bool_decide as Hin.
  - rewrite decide_False; [done|]. intros Hn. apply Hn. by apply Hids.
  - rewrite decide_True; [done|]. intros Ht. apply Hin. by apply Hids.
Qed.

End SessionFilesLemmas.

Section SessionFilesProperties.
Context `{Providers}.

Implicit Types (p : PDFProcessor.t) (e : Env) (session_id dir path : string)
  (fs : gmap string PdfFile).

Lemma filter_not_tagged_all session_id (records : list IndexRecord) :
  filter (tagged session_id) records = [] →
  filter (fun r => ¬ tagged session_id r) records = records.
Proof.
  induction records as [|r records IH]; [done|].
  rewrite !filter_cons. destruct (decide (tagged session_id r)); [done|].
  intros Hnil. rewrite decide_True by done. f_equal. by apply IH.
Qed.

Lemma filter_tagged_not_tagged session_id (records : list IndexRecord) :
  filter (tagged session_id) (filter (fun r => ¬ tagged session_id r) records) = [].
Proof.
  induction records as [|r records IH]; [done|].
  rewrite filter_cons. destruct (decide (¬ tagged session_id r)) as [Hn|Hn]; [|done].
  rewrite filter_cons. by rewrite decide_False.
Qed.

(** The identifiers [db_get] returns, without faults. *)
Lemma db_get_no_faults session_id e :
  ∃ ids,
    @SessionFiles.db_get _ no_faults session_id e = (Return ids, e)
    ∧ length ids = length (filter (tagged session_id) (collection e))
    ∧ (∀ i, i ∈ ids ↔ ∃ r, collection e !! i = Some r ∧ tagged session_id r).
Proof.
  eexists. split; [reflexivity|]. split.
  - apply (ids_length session_id (collection e) 0).
  - intros i. apply elem_of_ids.
Qed.

Lemma db_delete_no_faults session_id (ids : list nat) e :
  (∀ i, i ∈ ids ↔ ∃ r, collection e !! i = Some r ∧ tagged session_id r) →
  @SessionFiles.db_delete _ no_faults ids e =
    (Return tt,
     set_collection (filter (fun r => ¬ tagged session_id r) (collection e)) e).
Proof.
  intros Hids. unfold SessionFiles.db_delete. simpl. unfold_monad.
  do 2 f_equal. apply (delete_ids_filter session_id ids (collection e) 0).
  intros i r Hl. simpl. rewrite Hids. split.
  - intros (r' & Hl' & Ht). congruence.
  - intros Ht. by exists r.
Qed.

Lemma glob_pdf_after_delete dir fs :
  SessionFiles.glob_pdf dir
    (foldl (fun fs' path' => delete path' fs') fs (SessionFiles.glob_pdf dir fs).*1)
  = [].
Proof.
  destruct (SessionFiles.glob_pdf dir (foldl _ fs _)) as [|[path name] rest] eqn:Hg;
    [done|].
  assert ((path, name) ∈ SessionFiles.glob_pdf dir
            (foldl (fun fs' path' => delete path' fs') fs
               (SessionFiles.glob_pdf dir fs).*1)) as Hin
    by (rewrite Hg; apply list_elem_of_here).
  apply elem_of_glob_pdf in Hin as [[f Hf] Hname].
  rewrite lookup_foldl_delete in Hf.
  destruct (decide (path ∈ (SessionFiles.glob_pdf dir fs).*1)) as [|Hnin]; [done|].
  exfalso. apply Hnin. apply list_elem_of_fmap. exists (path, name).
  split; [done|]. apply elem_of_glob_pdf. split; [by exists f|done].
Qed.

End SessionFilesProperties.
